(** * expressApollo: the Express binding of the GraphQL executor

    A shallow embedding of [src/integrations/expressApollo.ts]: the
    handler factory [graphqlHTTP], the request handler it returns and the
    GraphiQL middleware [renderGraphiQL], together with the JavaScript
    notions the handler relies on (truthiness, property access,
    [JSON.parse], [JSON.stringify]).

    Layout: the JavaScript value model, the JSON codec, the Express
    request and response objects, the handler, and then the properties. *)

From Stdlib Require Import List String Ascii Bool Arith ZArith NArith Lia.
From Stdlib Require Import DecimalString.
Import ListNotations.

Set Warnings "-register-all".

Local Open Scope list_scope.
Local Open Scope string_scope.

(* ================================================================== *)
(** ** JavaScript values *)
(* ================================================================== *)

Module JS.

(** A number is kept as an exact decimal, [mantissa / 10 ^ scale], in
    lowest terms ([scale = 0] or [mantissa] not a multiple of ten).  The
    handler never computes with numbers: it only carries them from the
    request to the executor and from the results to the response.  IEEE
    rounding is outside the model. *)
Record Number := mkNumber { mantissa : Z; scale : nat }.

(** The values that travel through the handler: what [bodyParser.json()]
    and [JSON.parse] produce, plus [undefined]. An object is the list of
    its own properties in insertion order. *)
Inductive Value :=
| JUndefined
| JNull
| JBool (b : bool)
| JNum (n : Number)
| JStr (s : string)
| JArr (items : list Value)
| JObj (fields : list (string * Value)).

Definition JInt (z : Z) : Value := JNum (mkNumber z 0).

(** What a [throw] carries.  [Error] is [new Error(message)]; the two
    engine-raised errors are kept without their engine-specific text;
    [Thrown] is any other thrown value. *)
Inductive Exn :=
| Error (message : string)
| TypeError
| SyntaxError
| Thrown (v : Value).

(** The outcome of an expression that may throw. *)
Inductive Completion (A : Type) :=
| Ok (a : A)
| Raise (e : Exn).
Arguments Ok {A} a.
Arguments Raise {A} e.

(** [ToBoolean]: the falsy values are undefined, null, false, zero and
    the empty string. *)
Definition truthy (v : Value) : bool :=
  match v with
  | JUndefined | JNull => false
  | JBool b => b
  | JNum n => negb (Z.eqb (mantissa n) 0)
  | JStr s => negb (String.eqb s EmptyString)
  | JArr _ | JObj _ => true
  end.

(** [Array.isArray]. *)
Definition isArray (v : Value) : bool :=
  match v with JArr _ => true | _ => false end.

Fixpoint lookup (k : string) (fields : list (string * Value)) : Value :=
  match fields with
  | [] => JUndefined
  | (k', v) :: rest => if String.eqb k k' then v else lookup k rest
  end.

(** Property read [v.k] for the names the handler reads ([query],
    [operationName], [variables]): a [TypeError] on undefined and null,
    the own property of an object, undefined on anything else (none of
    the three names is a property of a primitive wrapper or of
    [Array.prototype]). *)
Definition getProp (v : Value) (k : string) : Completion Value :=
  match v with
  | JUndefined | JNull => Raise TypeError
  | JObj fields => Ok (lookup k fields)
  | _ => Ok JUndefined
  end.

End JS.
Import JS.

(* ================================================================== *)
(** ** Characters *)
(* ================================================================== *)

Definition code (c : ascii) : N := N_of_ascii c.
Definition char (n : N) : ascii := ascii_of_N n.

(** The double quote, U+0022. *)
Definition dquote : ascii := char 34.
Definition backslash : ascii := char 92.

Definition str1 (c : ascii) : string := String c EmptyString.

Definition is_ws (c : ascii) : bool :=
  let n := code c in
  (N.eqb n 32 || N.eqb n 9 || N.eqb n 10 || N.eqb n 13)%bool.

Definition is_digit (c : ascii) : bool :=
  let n := code c in (N.leb 48 n && N.leb n 57)%bool.

Definition digit_val (c : ascii) : Z := Z.of_N (code c - 48).

Definition hex_val (c : ascii) : option N :=
  let n := code c in
  if (N.leb 48 n && N.leb n 57)%bool then Some (n - 48)%N
  else if (N.leb 65 n && N.leb n 70)%bool then Some (n - 55)%N
  else if (N.leb 97 n && N.leb n 102)%bool then Some (n - 87)%N
  else None.

Definition hex_digit (n : N) : ascii :=
  if N.ltb n 10 then char (48 + n) else char (87 + n).

(* ================================================================== *)
(** ** JSON.stringify *)
(* ================================================================== *)

Definition digits (n : N) : string := NilZero.string_of_uint (N.to_uint n).

Fixpoint zeros (k : nat) : string :=
  match k with
  | O => EmptyString
  | S k' => String (char 48) (zeros k')
  end.

(** The decimal expansion of [mantissa / 10 ^ scale]. *)
Definition number_to_string (n : Number) : string :=
  let m := mantissa n in
  let sign := if Z.ltb m 0 then "-" else EmptyString in
  let ds := digits (Z.abs_N m) in
  match scale n with
  | O => sign ++ ds
  | S _ as k =>
      let padded := zeros (S k - String.length ds) ++ ds in
      let split := String.length padded - k in
      sign ++ substring 0 split padded ++ "." ++ substring split k padded
  end.

(** One character of a quoted JSON string. *)
Definition escape_char (c : ascii) : string :=
  let n := code c in
  if N.eqb n 34 then String backslash (str1 dquote)
  else if N.eqb n 92 then String backslash (str1 backslash)
  else if N.eqb n 8 then String backslash "b"
  else if N.eqb n 9 then String backslash "t"
  else if N.eqb n 10 then String backslash "n"
  else if N.eqb n 12 then String backslash "f"
  else if N.eqb n 13 then String backslash "r"
  else if N.ltb n 32 then
    String backslash ("u00" ++ String (hex_digit (n / 16)) (str1 (hex_digit (n mod 16))))
  else str1 c.

Fixpoint escape (s : string) : string :=
  match s with
  | EmptyString => EmptyString
  | String c r => escape_char c ++ escape r
  end.

Definition quote (s : string) : string :=
  String dquote (escape s ++ str1 dquote).

Fixpoint join (sep : string) (l : list string) : string :=
  match l with
  | [] => EmptyString
  | [x] => x
  | x :: rest => x ++ sep ++ join sep rest
  end.

Definition is_undefined (v : Value) : bool :=
  match v with JUndefined => true | _ => false end.

(** [JSON.stringify] on an array or an object, the two kinds of value the
    handler serialises.  Inside an array undefined is written [null];
    a property whose value is undefined is left out. *)
Fixpoint JSON_stringify (v : Value) : string :=
  match v with
  | JUndefined | JNull => "null"
  | JBool true => "true"
  | JBool false => "false"
  | JNum n => number_to_string n
  | JStr s => quote s
  | JArr items => "[" ++ join "," (map JSON_stringify items) ++ "]"
  | JObj fields =>
      let member :=
        fix member (fs : list (string * Value)) : list string :=
          match fs with
          | [] => []
          | (k, x) :: rest =>
              if is_undefined x then member rest
              else (quote k ++ ":" ++ JSON_stringify x) :: member rest
          end in
      "{" ++ join "," (member fields) ++ "}"
  end.

(* ================================================================== *)
(** ** JSON.parse *)
(* ================================================================== *)

Fixpoint skip_ws (s : string) : string :=
  match s with
  | String c r => if is_ws c then skip_ws r else s
  | EmptyString => s
  end.

(** Reads a run of decimal digits: the value accumulated on [acc], the
    number of digits read added to [n], and the rest of the input. *)
Fixpoint read_digits (s : string) (acc : Z) (n : nat) : Z * nat * string :=
  match s with
  | String c r =>
      if is_digit c then read_digits r (acc * 10 + digit_val c) (S n)
      else (acc, n, s)
  | EmptyString => (acc, n, s)
  end.

(** [m / 10 ^ k] in lowest terms. *)
Fixpoint reduce (k : nat) (m : Z) : Number :=
  match k with
  | O => mkNumber m 0
  | S k' => if Z.eqb (m mod 10) 0 then reduce k' (m / 10) else mkNumber m k
  end.

(** The number [m * 10 ^ (e - fd)], negated when [neg]. *)
Definition make_number (neg : bool) (m : Z) (fd : nat) (e : Z) : Number :=
  let m := if neg then Z.opp m else m in
  let shift := (Z.of_nat fd - e)%Z in
  if Z.leb shift 0 then mkNumber (m * 10 ^ (- shift)) 0
  else reduce (Z.to_nat shift) m.

Definition read_fraction (s : string) (ip : Z) : option (Z * nat * string) :=
  match s with
  | String c r =>
      if N.eqb (code c) 46 then
        match read_digits r ip 0 with
        | (_, O, _) => None
        | res => Some res
        end
      else Some (ip, O, s)
  | EmptyString => Some (ip, O, s)
  end.

Definition read_exponent (s : string) : option (Z * string) :=
  match s with
  | String c r =>
      if (N.eqb (code c) 101 || N.eqb (code c) 69)%bool then
        let '(neg, r1) :=
          match r with
          | String d r' =>
              if N.eqb (code d) 45 then (true, r')
              else if N.eqb (code d) 43 then (false, r')
              else (false, r)
          | EmptyString => (false, r)
          end in
        match read_digits r1 0 0 with
        | (_, O, _) => None
        | (v, _, rest) => Some (if neg then Z.opp v else v, rest)
        end
      else Some (0%Z, s)
  | EmptyString => Some (0%Z, s)
  end.

(** A JSON number: an optional minus sign, an integer part (a single
    zero, or a non-zero digit followed by digits), an optional fraction
    (a dot and at least one digit) and an optional exponent (e or E, an
    optional sign, at least one digit). *)
Definition parse_number (s : string) : option (Number * string) :=
  let '(neg, s1) :=
    match s with
    | String c r => if N.eqb (code c) 45 then (true, r) else (false, s)
    | EmptyString => (false, s)
    end in
  match s1 with
  | String c r =>
      if is_digit c then
        let '(ip, s2) :=
          if N.eqb (code c) 48 then (0%Z, r)
          else let '(v, _, r') := read_digits s1 0 0 in (v, r') in
        match read_fraction s2 ip with
        | Some (m, fd, s3) =>
            match read_exponent s3 with
            | Some (e, s4) => Some (make_number neg m fd e, s4)
            | None => None
            end
        | None => None
        end
      else None
  | EmptyString => None
  end.

(** The character a two-character escape stands for. *)
Definition simple_escape (e : ascii) : option ascii :=
  let n := code e in
  if N.eqb n 34 then Some dquote
  else if N.eqb n 92 then Some backslash
  else if N.eqb n 47 then Some (char 47)
  else if N.eqb n 98 then Some (char 8)
  else if N.eqb n 102 then Some (char 12)
  else if N.eqb n 110 then Some (char 10)
  else if N.eqb n 114 then Some (char 13)
  else if N.eqb n 116 then Some (char 9)
  else None.

Definition hex4 (h1 h2 h3 h4 : ascii) : option N :=
  match hex_val h1, hex_val h2, hex_val h3, hex_val h4 with
  | Some a, Some b, Some c, Some d => Some (((a * 16 + b) * 16 + c) * 16 + d)%N
  | _, _, _, _ => None
  end.

Definition cons_fst {A B} (a : A) (r : option (list A * B)) : option (list A * B) :=
  match r with
  | Some (l, b) => Some (a :: l, b)
  | None => None
  end.

(** The inside of a string literal, up to and including its closing quote:
    a byte of the input as it is ([inl]), or the UTF-16 code unit of a
    [\uXXXX] escape ([inr]). A raw control character is a syntax error. *)
Fixpoint read_string (s : string) : option (list (ascii + N) * string) :=
  match s with
  | EmptyString => None
  | String c r =>
      if Ascii.eqb c dquote then Some ([], r)
      else if N.ltb (code c) 32 then None
      else if Ascii.eqb c backslash then
        match r with
        | String e r1 =>
            match simple_escape e with
            | Some c' => cons_fst (inl c') (read_string r1)
            | None =>
                if N.eqb (code e) 117 then
                  match r1 with
                  | String h1 (String h2 (String h3 (String h4 r2))) =>
                      match hex4 h1 h2 h3 h4 with
                      | Some u => cons_fst (inr u) (read_string r2)
                      | None => None
                      end
                  | _ => None
                  end
                else None
            end
        | EmptyString => None
        end
      else cons_fst (inl c) (read_string r)
  end.

(** UTF-8 bytes of a code point; strings are byte strings holding UTF-8. *)
Definition utf8 (u : N) : string :=
  (if N.ltb u 128 then str1 (char u)
   else if N.ltb u 2048 then
     String (char (192 + u / 64)) (str1 (char (128 + u mod 64)))
   else if N.ltb u 65536 then
     String (char (224 + u / 4096))
       (String (char (128 + (u / 64) mod 64)) (str1 (char (128 + u mod 64))))
   else
     String (char (240 + u / 262144))
       (String (char (128 + (u / 4096) mod 64))
          (String (char (128 + (u / 64) mod 64)) (str1 (char (128 + u mod 64))))))%N.

Definition is_high_surrogate (u : N) : bool := (N.leb 55296 u && N.leb u 56319)%bool.
Definition is_low_surrogate (u : N) : bool := (N.leb 56320 u && N.leb u 57343)%bool.

Fixpoint encode_units (l : list (ascii + N)) : string :=
  match l with
  | [] => EmptyString
  | inl c :: r => String c (encode_units r)
  | inr hi :: r =>
      match r with
      | inr lo :: r' =>
          if (is_high_surrogate hi && is_low_surrogate lo)%bool
          then utf8 (65536 + (hi - 55296) * 1024 + (lo - 56320)) ++ encode_units r'
          else utf8 hi ++ encode_units r
      | _ => utf8 hi ++ encode_units r
      end
  end.

(** A string literal whose opening quote has been read. *)
Definition parse_string (s : string) : option (string * string) :=
  match read_string s with
  | Some (units, rest) => Some (encode_units units, rest)
  | None => None
  end.

(** Property definition while an object literal is read: a repeated key
    keeps its first position and takes the last value. *)
Fixpoint obj_set (k : string) (v : Value) (fields : list (string * Value))
  : list (string * Value) :=
  match fields with
  | [] => [(k, v)]
  | (k', v') :: rest =>
      if String.eqb k k' then (k, v) :: rest else (k', v') :: obj_set k v rest
  end.

Definition obj_of_members (ms : list (string * Value)) : Value :=
  JObj (fold_left (fun acc kv => obj_set (fst kv) (snd kv) acc) ms []).

Definition starts_with (c : ascii) (s : string) : option string :=
  match s with
  | String c' r => if Ascii.eqb c c' then Some r else None
  | EmptyString => None
  end.

Definition literal (word : string) (v : Value) (s : string) : option (Value * string) :=
  if String.prefix word s
  then Some (v, substring (String.length word) (String.length s - String.length word) s)
  else None.

(** The recursive-descent parser.  Every call is made on an input that
    starts at a non-blank character.  A value is read with a [fuel] above
    twice the length of its input, a list of elements or members with one
    more: a call passes one unit less to the next, and characters were
    consumed wherever two calls follow each other on the same path, so
    the [fuel] is never used up (see [parse_value_fuel]). *)
Fixpoint parse_value (fuel : nat) (s : string) : option (Value * string) :=
  match fuel with
  | O => None
  | S fuel' =>
      match s with
      | EmptyString => None
      | String c r =>
          let n := code c in
          if N.eqb n 123 then
            match starts_with (char 125) (skip_ws r) with
            | Some rest => Some (JObj [], rest)
            | None =>
                match parse_members fuel' (skip_ws r) with
                | Some (ms, rest) => Some (obj_of_members ms, rest)
                | None => None
                end
            end
          else if N.eqb n 91 then
            match starts_with (char 93) (skip_ws r) with
            | Some rest => Some (JArr [], rest)
            | None =>
                match parse_elements fuel' (skip_ws r) with
                | Some (vs, rest) => Some (JArr vs, rest)
                | None => None
                end
            end
          else if N.eqb n 34 then
            match parse_string r with
            | Some (str, rest) => Some (JStr str, rest)
            | None => None
            end
          else if N.eqb n 116 then literal "true" (JBool true) s
          else if N.eqb n 102 then literal "false" (JBool false) s
          else if N.eqb n 110 then literal "null" JNull s
          else
            match parse_number s with
            | Some (num, rest) => Some (JNum num, rest)
            | None => None
            end
      end
  end

with parse_elements (fuel : nat) (s : string) : option (list Value * string) :=
  match fuel with
  | O => None
  | S fuel' =>
      match parse_value fuel' s with
      | Some (v, rest) =>
          match skip_ws rest with
          | String c r =>
              if N.eqb (code c) 44 then cons_fst v (parse_elements fuel' (skip_ws r))
              else if N.eqb (code c) 93 then Some ([v], r)
              else None
          | EmptyString => None
          end
      | None => None
      end
  end

with parse_members (fuel : nat) (s : string)
  : option (list (string * Value) * string) :=
  match fuel with
  | O => None
  | S fuel' =>
      match starts_with dquote s with
      | Some r =>
          match parse_string r with
          | Some (k, rest) =>
              match starts_with (char 58) (skip_ws rest) with
              | Some rest1 =>
                  match parse_value fuel' (skip_ws rest1) with
                  | Some (v, rest2) =>
                      match skip_ws rest2 with
                      | String c r2 =>
                          if N.eqb (code c) 44
                          then cons_fst (k, v) (parse_members fuel' (skip_ws r2))
                          else if N.eqb (code c) 125 then Some ([(k, v)], r2)
                          else None
                      | EmptyString => None
                      end
                  | None => None
                  end
              | None => None
              end
          | None => None
          end
      | None => None
      end
  end.

(** [JSON.parse]: one value, blanks allowed around it, nothing else.  The
    request handler takes [JSON.parse] as a parameter, so that what it
    proves holds for the engine's own reader; this reader serves the
    explorer middleware and the sample requests. *)
Definition JSON_parse (s : string) : Completion Value :=
  match parse_value (2 * String.length s + 1) (skip_ws s) with
  | Some (v, rest) =>
      match skip_ws rest with
      | EmptyString => Ok v
      | String _ _ => Raise SyntaxError
      end
  | None => Raise SyntaxError
  end.

(* ================================================================== *)
(** ** The objects of the handler *)
(* ================================================================== *)

(** A reference to a host object that the handler only passes along: the
    schema, the root value, a logging function, the validation rules, a
    response formatter. *)
Definition Ref := nat.

(** [graphql.GraphQLResult]: [{ data?: any; errors?: Array }].  An absent
    [data] is [JUndefined] (the handler reads it with [typeof]), an absent
    [errors] is [None]. *)
Module GraphQLResult.
Record t := mk { data : Value; errors : option (list Value) }.

(** The object as [JSON.stringify] sees it. *)
Definition value (r : t) : Value :=
  JObj (("data", data r)
        :: match errors r with
           | Some es => [("errors", JArr es)]
           | None => []
           end).
End GraphQLResult.

(** The argument of [runQuery] (lines 99-109). *)
Module Params.
Record t := mk {
  schema : Ref;
  query : Value;
  variables : Value;
  rootValue : option Ref;
  operationName : Value;
  logFunction : option Ref;
  validationRules : option Ref;
  formatError : Exn -> Completion Value;
  formatResponse : option Ref
}.
End Params.

(** [ExpressApolloOptions] (lines 21-30).  The two functions the handler
    calls itself are functions here, and both may throw.  [formatError]
    is called with what was thrown (line 121).  [formatParams] is called
    as a method of the options object (line 112): besides the parameters
    it is given the object it is called on, [fields] being what that
    object holds apart from the transform itself. *)
Module ExpressApolloOptions.
Record fields := mkFields {
  schema : Ref;
  formatError : option (Exn -> Completion Value);
  rootValue : option Ref;
  context : option Ref;
  logFunction : option Ref;
  validationRules : option Ref;
  formatResponse : option Ref
}.
Record t := mk {
  own : fields;
  formatParams : option (fields -> Params.t -> Completion Params.t)
}.
End ExpressApolloOptions.

(** The fields of the options object are read through it. *)
Coercion ExpressApolloOptions.own :
  ExpressApolloOptions.t >-> ExpressApolloOptions.fields.

(** What the handler reads of [express.Request]: [body] is [JUndefined]
    when no body parser ran; [query] is the parsed query string, a map
    from parameter names to texts. *)
Module Request.
Record t := mk {
  method : string;
  body : Value;
  query : option (list (string * string))
}.
End Request.

(** What the handler writes of [express.Response]. *)
Module Response.
Record t := mk {
  statusCode : nat;
  headers : list (string * string);
  sent : option string
}.

(** A response nothing was written to: Node's default status. *)
Definition fresh : t := mk 200 [] None.

Fixpoint put (name value : string) (hs : list (string * string))
  : list (string * string) :=
  match hs with
  | [] => [(name, value)]
  | (n, v) :: rest =>
      if String.eqb n name then (name, value) :: rest
      else (n, v) :: put name value rest
  end.

Fixpoint get (name : string) (hs : list (string * string)) : option string :=
  match hs with
  | [] => None
  | (n, v) :: rest => if String.eqb n name then Some v else get name rest
  end.

(** [res.setHeader(name, value)] and [res.set(name, value)]. *)
Definition setHeader (name value : string) (res : t) : t :=
  mk (statusCode res) (put name value (headers res)) (sent res).

(** [res.status(code)]. *)
Definition status (code : nat) (res : t) : t :=
  mk code (headers res) (sent res).

(** [res.send(body)]. *)
Definition send (body : string) (res : t) : t :=
  mk (statusCode res) (headers res) (Some body).
End Response.

(** [ExpressApolloOptions | ExpressApolloOptionsFunction] (lines 32-34,
    told apart by [isOptionsFunction], lines 139-141).  The resolver is
    taken at its declared signature, a function from the request to the
    options: whether it answers directly or through a promise makes no
    difference once awaited, and the handler has no path for a resolver
    that fails. *)
Inductive Options :=
| Static (o : ExpressApolloOptions.t)
| Resolver (f : Request.t -> ExpressApolloOptions.t).

Definition isOptionsFunction (arg : Options) : bool :=
  match arg with Resolver _ => true | Static _ => false end.

(* ================================================================== *)
(** ** Computations that call the executor *)
(* ================================================================== *)

(** A computation that may throw and that may call [runQuery]; the state
    is the list of the parameters [runQuery] was called with so far,
    oldest first. *)
Definition Exec (A : Type) : Type :=
  list Params.t -> Completion A * list Params.t.

Definition ret {A} (a : A) : Exec A := fun calls => (Ok a, calls).

Definition throw {A} (e : Exn) : Exec A := fun calls => (Raise e, calls).

Definition bind {A B} (m : Exec A) (k : A -> Exec B) : Exec B :=
  fun calls =>
    match m calls with
    | (Ok a, calls') => k a calls'
    | (Raise e, calls') => (Raise e, calls')
    end.

Definition lift {A} (c : Completion A) : Exec A := fun calls => (c, calls).

Notation "x <- m ;; k" := (bind m (fun x => k))
  (at level 61, m at next level, right associativity).

(* ================================================================== *)
(** ** renderGraphiQL *)
(* ================================================================== *)

(** [GraphiQL.GraphiQLData] as this middleware uses it (lines 145-151):
    an absent [query] or [operationName] is [None], an absent [variables]
    is [JUndefined].  The optional [result] is neither read nor passed. *)
Module GraphiQLData.
Record t := mk {
  endpointURL : string;
  query : option string;
  variables : Value;
  operationName : option string
}.
End GraphiQLData.

Section Explorer.

(** The template renderer of [../modules/renderGraphiQL]. *)
Variable GraphiQL_renderGraphiQL : GraphiQLData.t -> string.

(** [q.name]. *)
Fixpoint param (name : string) (q : list (string * string)) : option string :=
  match q with
  | [] => None
  | (n, v) :: rest => if String.eqb n name then Some v else param name rest
  end.

(** [x || d] for a text [x] that may be undefined. *)
Definition text_or (x : option string) (d : string) : string :=
  match x with
  | Some s => if String.eqb s EmptyString then d else s
  | None => d
  end.

(** [s || d] for a text [s] and an optional text [d]. *)
Definition text_or_option (s : string) (d : option string) : option string :=
  if String.eqb s EmptyString then d else Some s.

(** Lines 157-168: the data handed to the template renderer. *)
Definition graphiQLData (options : GraphiQLData.t) (req : Request.t)
  : Completion GraphiQLData.t :=
  let q := match Request.query req with Some q => q | None => [] end in
  let query := text_or (param "query" q) EmptyString in
  let variables := text_or (param "variables" q) "{}" in
  let operationName := text_or (param "operationName" q) EmptyString in
  match JSON_parse variables with
  | Raise e => Raise e
  | Ok parsed =>
      Ok {| GraphiQLData.endpointURL := GraphiQLData.endpointURL options;
            GraphiQLData.query :=
              text_or_option query (GraphiQLData.query options);
            GraphiQLData.variables :=
              if truthy parsed then parsed else GraphiQLData.variables options;
            GraphiQLData.operationName :=
              text_or_option operationName (GraphiQLData.operationName options) |}
  end.

(** The middleware, lines 154-172. *)
Definition renderGraphiQL (options : GraphiQLData.t)
           (req : Request.t) (res : Response.t) : Completion Response.t :=
  match graphiQLData options req with
  | Raise e => Raise e
  | Ok data =>
      Ok (Response.send (GraphiQL_renderGraphiQL data)
            (Response.setHeader "Content-Type" "text/html" res))
  end.

End Explorer.

(* ================================================================== *)
(** ** Fixed texts *)
(* ================================================================== *)

Definition in_quotes (s : string) : string := str1 dquote ++ s ++ str1 dquote.

(** The two fixed bodies (lines 68 and 74). *)
Definition only_post_body : string :=
  "Apollo Server supports only POST requests.".

Definition body_missing_body : string :=
  "POST body missing. Did you forget "
  ++ in_quotes "app.use(bodyParser.json())" ++ "?".

(* ================================================================== *)
(** ** Sample collaborators and requests *)
(* ================================================================== *)

(** An executor that rejects the query [{ boom }] with an error, rejects
    the query [{ void }] with undefined, and otherwise answers with the
    variables it was given and the number of calls made before. *)
Definition echo_runQuery (calls : list Params.t) (params : Params.t)
  : Completion GraphQLResult.t :=
  match Params.query params with
  | JStr "{ boom }" => Raise (Error "executor failed")
  | JStr "{ void }" => Raise (Thrown JUndefined)
  | JStr "{ count }" =>
      Ok {| GraphQLResult.data := JInt (Z.of_nat (List.length calls));
            GraphQLResult.errors := None |}
  | _ =>
      Ok {| GraphQLResult.data := JObj [("variables", Params.variables params)];
            GraphQLResult.errors := None |}
  end.

(** A formatter in the manner of [graphql.formatError]: it refuses a
    falsy error, and otherwise returns an object with the message. *)
Definition message_formatError (e : Exn) : Completion Value :=
  match e with
  | Error message => Ok (JObj [("message", JStr message)])
  | TypeError => Ok (JObj [("message", JStr "TypeError")])
  | SyntaxError => Ok (JObj [("message", JStr "SyntaxError")])
  | Thrown v =>
      if truthy v
      then Ok (JObj [("message",
                      match v with JObj fields => lookup "message" fields
                                 | _ => JUndefined end)])
      else Raise (Error "Received null or undefined error.")
  end.

Definition plain_fields : ExpressApolloOptions.fields :=
  {| ExpressApolloOptions.schema := 0;
     ExpressApolloOptions.formatError := None;
     ExpressApolloOptions.rootValue := None;
     ExpressApolloOptions.context := Some 7;
     ExpressApolloOptions.logFunction := None;
     ExpressApolloOptions.validationRules := None;
     ExpressApolloOptions.formatResponse := None |}.

Definition plain_options : ExpressApolloOptions.t :=
  {| ExpressApolloOptions.own := plain_fields;
     ExpressApolloOptions.formatParams := None |}.




(** A transform that blanks the query. *)
Definition blank_query (this : ExpressApolloOptions.fields) (params : Params.t)
  : Completion Params.t :=
  Ok {| Params.schema := Params.schema params;
        Params.query := JStr EmptyString;
        Params.variables := Params.variables params;
        Params.rootValue := Params.rootValue params;
        Params.operationName := Params.operationName params;
        Params.logFunction := Params.logFunction params;
        Params.validationRules := Params.validationRules params;
        Params.formatError := Params.formatError params;
        Params.formatResponse := Params.formatResponse params |}.

Definition blanking_options : ExpressApolloOptions.t :=
  {| ExpressApolloOptions.own := plain_fields;
     ExpressApolloOptions.formatParams := Some blank_query |}.

(** A transform that hands the context of the options it is called on
    to the executor, as the root value. *)
Definition forward_context (this : ExpressApolloOptions.fields) (params : Params.t)
  : Completion Params.t :=
  Ok {| Params.schema := Params.schema params;
        Params.query := Params.query params;
        Params.variables := Params.variables params;
        Params.rootValue := ExpressApolloOptions.context this;
        Params.operationName := Params.operationName params;
        Params.logFunction := Params.logFunction params;
        Params.validationRules := Params.validationRules params;
        Params.formatError := Params.formatError params;
        Params.formatResponse := Params.formatResponse params |}.

Definition forwarding_options : ExpressApolloOptions.t :=
  {| ExpressApolloOptions.own := plain_fields;
     ExpressApolloOptions.formatParams := Some forward_context |}.

(** Options computed from the request: the transform is configured for
    POST requests only. *)
Definition per_request_options (req : Request.t) : ExpressApolloOptions.t :=
  if String.eqb (Request.method req) "POST" then plain_options
  else blanking_options.

Definition post (body : Value) : Request.t :=
  {| Request.method := "POST"; Request.body := body; Request.query := None |}.

Definition get_request : Request.t :=
  {| Request.method := "GET"; Request.body := JUndefined; Request.query := Some [] |}.

Definition get_with (q : list (string * string)) : Request.t :=
  {| Request.method := "GET"; Request.body := JUndefined; Request.query := Some q |}.

(** The JSON text of [{a: 1}]. *)
Definition a1_text : string := "{" ++ in_quotes "a" ++ ":1}".

Definition item_ok : Value :=
  JObj [("query", JStr "{ me }"); ("variables", JStr a1_text)].

Definition item_no_query : Value := JObj [("variables", JObj [])].

Definition explorer_options : GraphiQLData.t :=
  {| GraphiQLData.endpointURL := "/graphql";
     GraphiQLData.query := Some "{ me }";
     GraphiQLData.variables := JObj [("a", JInt 1)];
     GraphiQLData.operationName := Some "Me" |}.

Definition item_bad_variables : Value :=
  JObj [("query", JStr "{ me }"); ("variables", JStr "{a:1}")].

(** An item whose execution is rejected with undefined. *)
Definition item_void : Value := JObj [("query", JStr "{ void }")].

Definition item_boom : Value := JObj [("query", JStr "{ boom }")].

Definition batch3 : list Value := [item_ok; item_no_query; item_bad_variables].

(* ================================================================== *)
(** ** graphqlHTTP *)
(* ================================================================== *)

Section Handler.

(** The collaborators.  The executor of [../core/runQuery] resolves to a
    result or rejects, and its answer may depend on the calls made to it
    before, which it is given.  The default formatter
    [graphql.formatError] returns the formatted error or throws.
    [parseJSON] is [JSON.parse] as the engine implements it. *)
Variable runQuery : list Params.t -> Params.t -> Completion GraphQLResult.t.
Variable graphql_formatError : Exn -> Completion Value.
Variable parseJSON : string -> Completion Value.

(** [await runQuery(params)], recorded. *)
Definition call_runQuery (params : Params.t) : Exec GraphQLResult.t :=
  fun calls => (runQuery calls params, (calls ++ [params])%list).

(** Line 63. *)
Definition formatErrorFn (optionsObject : ExpressApolloOptions.t)
  : Exn -> Completion Value :=
  match ExpressApolloOptions.formatError optionsObject with
  | Some f => f
  | None => graphql_formatError
  end.

(** Lines 99-109. *)
Definition assembleParams (optionsObject : ExpressApolloOptions.t)
           (query variables operationName : Value) : Params.t :=
  {| Params.schema := ExpressApolloOptions.schema optionsObject;
     Params.query := query;
     Params.variables := variables;
     Params.rootValue := ExpressApolloOptions.rootValue optionsObject;
     Params.operationName := operationName;
     Params.logFunction := ExpressApolloOptions.logFunction optionsObject;
     Params.validationRules := ExpressApolloOptions.validationRules optionsObject;
     Params.formatError := formatErrorFn optionsObject;
     Params.formatResponse := ExpressApolloOptions.formatResponse optionsObject |}.

(** Lines 111-113: the transform is called on the options object. *)
Definition applyFormatParams (optionsObject : ExpressApolloOptions.t)
           (params : Params.t) : Completion Params.t :=
  match ExpressApolloOptions.formatParams optionsObject with
  | Some f => f (ExpressApolloOptions.own optionsObject) params
  | None => Ok params
  end.

(** Lines 111-119: the transform, the presence check, the executor. *)
Definition executeParams (optionsObject : ExpressApolloOptions.t)
           (params : Params.t) : Exec GraphQLResult.t :=
  params <- lift (applyFormatParams optionsObject params) ;;
  if negb (truthy (Params.query params))
  then throw (Error "Must provide query string.")
  else call_runQuery params.

(** Lines 94-97. *)
Definition parseVariables (variables : Value) : Completion Value :=
  match variables with
  | JStr s => parseJSON s
  | _ => Ok variables
  end.

(** Lines 90-92: the three property reads. *)
Definition extractFields (requestParams : Value)
  : Completion (Value * Value * Value) :=
  match getProp requestParams "query" with
  | Raise e => Raise e
  | Ok query =>
      match getProp requestParams "operationName" with
      | Raise e => Raise e
      | Ok operationName =>
          match getProp requestParams "variables" with
          | Raise e => Raise e
          | Ok variables => Ok (query, operationName, variables)
          end
      end
  end.

(** The body of the [try] block, lines 90-119. *)
Definition tryBlock (optionsObject : ExpressApolloOptions.t)
           (requestParams : Value) : Exec GraphQLResult.t :=
  fields <- lift (extractFields requestParams) ;;
  let '(query, operationName, variables) := fields in
  variables <- lift (parseVariables variables) ;;
  executeParams optionsObject
    (assembleParams optionsObject query variables operationName).

(** The [catch] block, line 121: the result to push, or what the
    formatter threw. *)
Definition errorResult (optionsObject : ExpressApolloOptions.t) (e : Exn)
  : Completion GraphQLResult.t :=
  match formatErrorFn optionsObject e with
  | Ok formatted =>
      Ok {| GraphQLResult.data := JUndefined;
            GraphQLResult.errors := Some [formatted] |}
  | Raise e' => Raise e'
  end.

(** One turn of the loop, lines 89-122: the result to push for the item,
    or what left the [catch] block, and the executor calls made so far. *)
Definition processItem (optionsObject : ExpressApolloOptions.t)
           (requestParams : Value) (calls : list Params.t)
  : Completion GraphQLResult.t * list Params.t :=
  match tryBlock optionsObject requestParams calls with
  | (Ok result, calls') => (Ok result, calls')
  | (Raise e, calls') => (errorResult optionsObject e, calls')
  end.

(** The loop, lines 87-123, from the state [(responses, calls)]: it
    stops at the first item whose [catch] block throws. *)
Fixpoint processAll (optionsObject : ExpressApolloOptions.t) (b : list Value)
         (st : list GraphQLResult.t * list Params.t)
  : Completion (list GraphQLResult.t) * list Params.t :=
  match b with
  | [] => (Ok (fst st), snd st)
  | requestParams :: rest =>
      match processItem optionsObject requestParams (snd st) with
      | (Ok result, calls') =>
          processAll optionsObject rest ((fst st ++ [result])%list, calls')
      | (Raise e, calls') => (Raise e, calls')
      end
  end.

(** Line 130. *)
Definition isFailure (gqlResponse : GraphQLResult.t) : bool :=
  match GraphQLResult.errors gqlResponse with
  | Some _ => is_undefined (GraphQLResult.data gqlResponse)
  | None => false
  end.

(** Lines 56-61. *)
Definition resolveOptions (options : Options) (req : Request.t)
  : ExpressApolloOptions.t :=
  match options with
  | Resolver f => f req
  | Static o => o
  end.

(** Lines 78-85: whether the body is a batch, and its items. *)
Definition normalize (body : Value) : bool * list Value :=
  match body with
  | JArr items => (true, items)
  | other => (false, [other])
  end.

(** Lines 125-134: the answer for the results collected. *)
Definition answer (isBatch : bool) (responses : list GraphQLResult.t)
           (res : Response.t) : Completion Response.t :=
  let res := Response.setHeader "Content-Type" "application/json" res in
  if isBatch then
    Ok (Response.send
          (JSON_stringify (JArr (map GraphQLResult.value responses))) res)
  else
    match responses with
    | gqlResponse :: _ =>
        let res := if isFailure gqlResponse then Response.status 400 res else res in
        Ok (Response.send (JSON_stringify (GraphQLResult.value gqlResponse)) res)
    | [] => Raise TypeError
    end.

(** The request handler, lines 55-136: the response as the handler
    leaves it, or the error the returned promise rejects with (nothing
    was sent then), and the calls made to the executor. *)
Definition handler (options : Options) (req : Request.t) (res : Response.t)
  : Completion Response.t * list Params.t :=
  let optionsObject := resolveOptions options req in
  if negb (String.eqb (Request.method req) "POST") then
    (Ok (Response.send only_post_body
           (Response.status 405 (Response.setHeader "Allow" "POST" res))), [])
  else if negb (truthy (Request.body req)) then
    (Ok (Response.send body_missing_body (Response.status 500 res)), [])
  else
    let '(isBatch, b) := normalize (Request.body req) in
    match processAll optionsObject b ([], []) with
    | (Ok responses, calls) => (answer isBatch responses res, calls)
    | (Raise e, calls) => (Raise e, calls)
    end.

(** What the factory returns. *)
Definition ExpressHandler : Type :=
  Request.t -> Response.t -> Completion Response.t * list Params.t.

(** The factory, lines 45-54.  [arguments] is the argument list of the
    call; an argument that is missing, undefined or null is [None]. *)
Definition graphqlHTTP (arguments : list (option Options))
  : Completion ExpressHandler :=
  match hd None arguments with
  | None => Raise (Error "Apollo Server requires options.")
  | Some options =>
      if Nat.ltb 1 (List.length arguments) then
        Raise (Error ("Apollo Server expects exactly one argument, got "
                      ++ digits (N.of_nat (List.length arguments + 1))))
      else Ok (handler options)
  end.

(** The configuration a request is handled with: the static options, or
    what the resolver returns for the request. *)
Inductive configures : Options -> Request.t -> ExpressApolloOptions.t -> Prop :=
| configures_static o req : configures (Static o) req o
| configures_resolver f req : configures (Resolver f) req (f req).

(** The steps of the [try] block at which the processing of an item can
    throw, with what is thrown; [calls] are the executor calls made
    before the item. *)
Inductive stepRaises (optionsObject : ExpressApolloOptions.t) (item : Value)
          (calls : list Params.t) : Exn -> Prop :=
| raises_extraction e :
    extractFields item = Raise e ->
    stepRaises optionsObject item calls e
| raises_parsing query operationName variables e :
    extractFields item = Ok (query, operationName, variables) ->
    parseVariables variables = Raise e ->
    stepRaises optionsObject item calls e
| raises_transform query operationName variables parsed e :
    extractFields item = Ok (query, operationName, variables) ->
    parseVariables variables = Ok parsed ->
    applyFormatParams optionsObject
      (assembleParams optionsObject query parsed operationName) = Raise e ->
    stepRaises optionsObject item calls e
| raises_presence query operationName variables parsed params :
    extractFields item = Ok (query, operationName, variables) ->
    parseVariables variables = Ok parsed ->
    applyFormatParams optionsObject
      (assembleParams optionsObject query parsed operationName) = Ok params ->
    truthy (Params.query params) = false ->
    stepRaises optionsObject item calls (Error "Must provide query string.")
| raises_executor query operationName variables parsed params e :
    extractFields item = Ok (query, operationName, variables) ->
    parseVariables variables = Ok parsed ->
    applyFormatParams optionsObject
      (assembleParams optionsObject query parsed operationName) = Ok params ->
    truthy (Params.query params) = true ->
    runQuery calls params = Raise e ->
    stepRaises optionsObject item calls e.

(** The result pushed for an item: the result of its try block, or, when
    a step threw, the error result made of what the formatter returned. *)
Definition resultOf (optionsObject : ExpressApolloOptions.t) (item : Value)
           (result : GraphQLResult.t) : Prop :=
  exists before,
    (exists calls, tryBlock optionsObject item before = (Ok result, calls))
    \/ (exists e formatted,
          stepRaises optionsObject item before e
          /\ formatErrorFn optionsObject e = Ok formatted
          /\ result = {| GraphQLResult.data := JUndefined;
                         GraphQLResult.errors := Some [formatted] |}).

(* ================================================================== *)
(** ** The try block, the catch block and the loop *)
(* ================================================================== *)

Lemma configures_resolveOptions options req optionsObject :
  configures options req optionsObject ->
  resolveOptions options req = optionsObject.
Proof. intros H. destruct H; reflexivity. Qed.

(** What the [catch] block does with a thrown error. *)
Lemma processItem_raise optionsObject item calls e calls' :
  tryBlock optionsObject item calls = (Raise e, calls') ->
  processItem optionsObject item calls = (errorResult optionsObject e, calls').
Proof. intros H. unfold processItem. now rewrite H. Qed.

Lemma processItem_ok optionsObject item calls result calls' :
  tryBlock optionsObject item calls = (Ok result, calls') ->
  processItem optionsObject item calls = (Ok result, calls').
Proof. intros H. unfold processItem. now rewrite H. Qed.

(** The try block from the point where the fields are read and the
    variables parsed. *)
Lemma tryBlock_parsed optionsObject item query operationName variables parsed calls :
  extractFields item = Ok (query, operationName, variables) ->
  parseVariables variables = Ok parsed ->
  tryBlock optionsObject item calls
  = executeParams optionsObject
      (assembleParams optionsObject query parsed operationName) calls.
Proof.
  intros Hx Hp. unfold tryBlock, bind, lift. now rewrite Hx, Hp.
Qed.

Lemma executeParams_transformed optionsObject params final calls :
  applyFormatParams optionsObject params = Ok final ->
  executeParams optionsObject params calls
  = if truthy (Params.query final)
    then (runQuery calls final, (calls ++ [final])%list)
    else (Raise (Error "Must provide query string."), calls).
Proof.
  intros H. unfold executeParams, bind, lift. rewrite H.
  now destruct (truthy (Params.query final)).
Qed.

(** A step that throws makes the try block throw the same error; the
    executor is called at most by the last step. *)
Lemma stepRaises_tryBlock optionsObject item calls e :
  stepRaises optionsObject item calls e ->
  exists made,
    tryBlock optionsObject item calls = (Raise e, (calls ++ made)%list).
Proof.
  intros H. destruct H as
    [ e Hx
    | query operationName variables e Hx Hp
    | query operationName variables parsed e Hx Hp Hf
    | query operationName variables parsed params Hx Hp Hf Hq
    | query operationName variables parsed params e Hx Hp Hf Hq Hr ].
  - exists []. unfold tryBlock, bind, lift. rewrite Hx. now rewrite app_nil_r.
  - exists []. unfold tryBlock, bind, lift. rewrite Hx, Hp. now rewrite app_nil_r.
  - exists []. rewrite (tryBlock_parsed _ _ _ _ _ _ _ Hx Hp).
    unfold executeParams, bind, lift. rewrite Hf. now rewrite app_nil_r.
  - exists []. rewrite (tryBlock_parsed _ _ _ _ _ _ _ Hx Hp).
    rewrite (executeParams_transformed _ _ _ _ Hf), Hq. now rewrite app_nil_r.
  - exists [params]. rewrite (tryBlock_parsed _ _ _ _ _ _ _ Hx Hp).
    rewrite (executeParams_transformed _ _ _ _ Hf), Hq. now rewrite Hr.
Qed.

(** Conversely, the try block throws only at one of these steps. *)
Lemma tryBlock_raise_stepRaises optionsObject item calls e calls' :
  tryBlock optionsObject item calls = (Raise e, calls') ->
  stepRaises optionsObject item calls e.
Proof.
  unfold tryBlock, bind, lift.
  destruct (extractFields item) as [[[query operationName] variables] | ex] eqn:Hx.
  2:{ intros H. inversion H; subst. now apply raises_extraction. }
  destruct (parseVariables variables) as [parsed | ep] eqn:Hp.
  2:{ intros H. inversion H; subst. eapply raises_parsing; eauto. }
  destruct (applyFormatParams optionsObject
              (assembleParams optionsObject query parsed operationName))
    as [params | ef] eqn:Hf.
  2:{ unfold executeParams, bind, lift. rewrite Hf.
      intros H. inversion H; subst. eapply raises_transform; eauto. }
  rewrite (executeParams_transformed _ _ _ _ Hf).
  destruct (truthy (Params.query params)) eqn:Hq.
  - intros H. inversion H; subst. eapply raises_executor; eauto.
  - intros H. inversion H; subst. eapply raises_presence; eauto.
Qed.

(** An item calls the executor at most once, and never with parameters
    whose query is falsy. *)
Lemma tryBlock_calls optionsObject item calls :
  snd (tryBlock optionsObject item calls) = calls
  \/ exists params,
       snd (tryBlock optionsObject item calls) = (calls ++ [params])%list
       /\ truthy (Params.query params) = true.
Proof.
  unfold tryBlock, bind, lift.
  destruct (extractFields item) as [[[query operationName] variables] | e];
    [| now left].
  destruct (parseVariables variables) as [parsed | e]; [| now left].
  unfold executeParams, bind, lift.
  destruct (applyFormatParams optionsObject
              (assembleParams optionsObject query parsed operationName))
    as [final | e]; [| now left].
  destruct (truthy (Params.query final)) eqn:Hq; cbn; [| now left].
  right. exists final. split; [reflexivity | exact Hq].
Qed.

Lemma processItem_calls optionsObject item calls :
  snd (processItem optionsObject item calls)
  = snd (tryBlock optionsObject item calls).
Proof.
  unfold processItem.
  now destruct (tryBlock optionsObject item calls) as [[r | e] calls'].
Qed.

Lemma processAll_calls optionsObject b :
  forall responses calls,
  exists made,
    snd (processAll optionsObject b (responses, calls)) = (calls ++ made)%list
    /\ List.length made <= List.length b
    /\ Forall (fun params => truthy (Params.query params) = true) made.
Proof.
  induction b as [| item rest IH]; intros responses calls; cbn [processAll fst snd].
  - exists []. rewrite app_nil_r. repeat split; [cbn; lia | constructor].
  - pose proof (processItem_calls optionsObject item calls) as Hs.
    assert (Hstep : exists step,
               snd (processItem optionsObject item calls) = (calls ++ step)%list
               /\ List.length step <= 1
               /\ Forall (fun params => truthy (Params.query params) = true) step).
    { rewrite Hs.
      destruct (tryBlock_calls optionsObject item calls) as [-> | [p [-> Hp]]].
      - exists []. rewrite app_nil_r. repeat split; [cbn; lia | constructor].
      - exists [p]. repeat split; [cbn; lia | repeat constructor; exact Hp]. }
    destruct Hstep as [step [Hstep [Hlen Hq]]].
    destruct (processItem optionsObject item calls) as [[r | e] calls'];
      cbn [snd] in Hstep; subst calls'.
    + destruct (IH (responses ++ [r])%list (calls ++ step)%list)
        as [made [Hm [Hl Hf]]].
      exists (step ++ made)%list. rewrite Hm, app_assoc.
      repeat split; [rewrite length_app; cbn; lia | now apply Forall_app].
    + exists step. repeat split; [cbn; lia | exact Hq].
Qed.

(** The loop over a concatenation. *)
Lemma processAll_app optionsObject xs ys :
  forall st,
  processAll optionsObject (xs ++ ys)%list st
  = match processAll optionsObject xs st with
    | (Ok responses, calls) => processAll optionsObject ys (responses, calls)
    | (Raise e, calls) => (Raise e, calls)
    end.
Proof.
  induction xs as [| item rest IH]; intros st; cbn [processAll app].
  - now destruct st.
  - destruct (processItem optionsObject item (snd st)) as [[r | e] calls'];
      [apply IH | reflexivity].
Qed.

Lemma processItem_resultOf optionsObject item before result calls :
  processItem optionsObject item before = (Ok result, calls) ->
  resultOf optionsObject item result.
Proof.
  unfold processItem. intros Hp. exists before.
  destruct (tryBlock optionsObject item before) as [[r | e] calls'] eqn:Ht.
  - inversion Hp; subst. left. now exists calls.
  - unfold errorResult in Hp.
    destruct (formatErrorFn optionsObject e) as [formatted | e'] eqn:Hf;
      [| discriminate].
    inversion Hp; subst. right. exists e, formatted.
    split; [now apply (tryBlock_raise_stepRaises _ _ _ _ _ Ht) |].
    split; [exact Hf | reflexivity].
Qed.

(** When the loop ends, it has pushed one result per item, in order, each
    the result of that item. *)
Lemma processAll_results optionsObject b :
  forall responses calls responses' calls',
  processAll optionsObject b (responses, calls) = (Ok responses', calls') ->
  exists pushed,
    responses' = (responses ++ pushed)%list
    /\ Forall2 (resultOf optionsObject) b pushed.
Proof.
  induction b as [| item rest IH]; intros responses calls responses' calls';
    cbn [processAll fst snd].
  - intros H. inversion H; subst. exists []. rewrite app_nil_r.
    split; [reflexivity | constructor].
  - destruct (processItem optionsObject item calls) as [[r | e] calls1] eqn:Hi;
      [| discriminate].
    intros H. apply IH in H. destruct H as [pushed [-> HF]].
    exists (r :: pushed). rewrite <- app_assoc. split; [reflexivity |].
    constructor; [| exact HF].
    now apply (processItem_resultOf _ _ _ _ _ Hi).
Qed.



(** The handler on a POST request with a truthy body. *)
Lemma handler_post options req res :
  Request.method req = "POST" ->
  truthy (Request.body req) = true ->
  handler options req res
  = match processAll (resolveOptions options req)
            (snd (normalize (Request.body req))) ([], []) with
    | (Ok responses, calls) =>
        (answer (fst (normalize (Request.body req))) responses res, calls)
    | (Raise e, calls) => (Raise e, calls)
    end.
Proof.
  intros Hm Ht. unfold handler. rewrite Hm, Ht.
  change (String.eqb "POST" "POST") with true. cbn [negb].
  now destruct (normalize (Request.body req)).
Qed.

(* ================================================================== *)
(** ** Properties of the request handler *)
(* ================================================================== *)


(** C2, as amended.  When a step of the processing of a batch item
    throws (field extraction, parsing of the variables, the parameter
    transform, the query-presence check, the executor) and the error
    formatter, the configured one or else the default one, returns for
    what was thrown, the item gets the result [{ errors: [formatted] }]
    in its own position and the loop goes on with the items after it,
    the failed item having added at most its one executor call. *)
Theorem item_failure_recovered_in_place
        options req res optionsObject before item after responses calls e formatted :
  Request.method req = "POST" ->
  Request.body req = JArr (before ++ item :: after)%list ->
  configures options req optionsObject ->
  processAll optionsObject before ([], []) = (Ok responses, calls) ->
  stepRaises optionsObject item calls e ->
  match ExpressApolloOptions.formatError optionsObject with
  | Some f => f e
  | None => graphql_formatError e
  end = Ok formatted ->
  List.length responses = List.length before
  /\ exists made,
       (made = [] \/ exists params, made = [params])
       /\ handler options req res
          = match processAll optionsObject after
                    ((responses
                      ++ [{| GraphQLResult.data := JUndefined;
                             GraphQLResult.errors := Some [formatted] |}])%list,
                     (calls ++ made)%list) with
            | (Ok results, calls') =>
                (Ok (Response.send
                       (JSON_stringify (JArr (map GraphQLResult.value results)))
                       (Response.setHeader "Content-Type" "application/json" res)),
                 calls')
            | (Raise e', calls') => (Raise e', calls')
            end.
Proof.
  intros Hm Hb Hc Hp He Hf.
  split.
  { destruct (processAll_results _ _ _ _ _ _ Hp) as [pushed [Hr HF]].
    cbn in Hr. subst pushed. symmetry. apply (Forall2_length HF). }
  destruct (stepRaises_tryBlock _ _ _ _ He) as [made Ht].
  exists made. split.
  { pose proof (tryBlock_calls optionsObject item calls) as Hcalls.
    rewrite Ht in Hcalls. cbn [snd] in Hcalls.
    destruct Hcalls as [H | [p [H _]]].
    - left. apply (app_inv_head calls). now rewrite app_nil_r.
    - right. exists p. now apply (app_inv_head calls). }
  rewrite (handler_post _ _ _ Hm); [| now rewrite Hb].
  rewrite (configures_resolveOptions _ _ _ Hc), Hb. cbn [normalize fst snd].
  rewrite processAll_app, Hp. cbn [processAll fst snd].
  rewrite (processItem_raise _ _ _ _ _ Ht).
  unfold errorResult, formatErrorFn.
  destruct (ExpressApolloOptions.formatError optionsObject); rewrite Hf;
    reflexivity.
Qed.



(** C6. The query-presence check looks at the parameters as the
    transform returned them (as assembled, without a transform): when
    their query is absent or empty, the item fails with
    [Must provide query string.] and the executor is not called. *)
Theorem query_presence_checked_on_final_params
        optionsObject item query operationName variables parsed final calls :
  extractFields item = Ok (query, operationName, variables) ->
  parseVariables variables = Ok parsed ->
  applyFormatParams optionsObject
    (assembleParams optionsObject query parsed operationName) = Ok final ->
  Params.query final = JUndefined \/ Params.query final = JStr EmptyString ->
  tryBlock optionsObject item calls
  = (Raise (Error "Must provide query string."), calls)
  /\ processItem optionsObject item calls
     = (errorResult optionsObject (Error "Must provide query string."), calls).
Proof.
  intros Hx Hp Hf Hq.
  assert (Ht : tryBlock optionsObject item calls
               = (Raise (Error "Must provide query string."), calls)).
  { rewrite (tryBlock_parsed _ _ _ _ _ _ _ Hx Hp).
    rewrite (executeParams_transformed _ _ _ _ Hf).
    now destruct Hq as [-> | ->]. }
  split; [exact Ht | now apply processItem_raise].
Qed.

(** C7. A request whose method is not POST is answered with status 405,
    the header [Allow: POST] and the fixed text, whatever its body, and
    the executor is not called. *)
Theorem non_post_rejected options req res :
  Request.method req <> "POST" ->
  handler options req res
  = (Ok {| Response.statusCode := 405;
           Response.headers := Response.put "Allow" "POST" (Response.headers res);
           Response.sent := Some "Apollo Server supports only POST requests." |},
     []).
Proof.
  intros Hm. unfold handler.
  apply String.eqb_neq in Hm. now rewrite Hm.
Qed.

(** C8. A POST request on which no parsed body is present is answered
    with status 500 and the text that points at the JSON body parser, and
    the executor is not called. *)
Theorem missing_body_rejected options req res :
  Request.method req = "POST" ->
  Request.body req = JUndefined ->
  handler options req res
  = (Ok {| Response.statusCode := 500;
           Response.headers := Response.headers res;
           Response.sent :=
             Some ("POST body missing. Did you forget "
                   ++ in_quotes "app.use(bodyParser.json())" ++ "?") |},
     []).
Proof.
  intros Hm Hb. unfold handler. now rewrite Hm, Hb.
Qed.

(** C9. The factory throws, and returns no handler, when it is called
    without an argument or with more than one. *)
Theorem factory_rejects_bad_arguments arguments :
  arguments = [] \/ 1 < List.length arguments ->
  (exists message, graphqlHTTP arguments = Raise (Error message))
  /\ (forall h, graphqlHTTP arguments <> Ok h).
Proof.
  intros H.
  assert (Hr : exists message, graphqlHTTP arguments = Raise (Error message)).
  { unfold graphqlHTTP. destruct H as [-> | Hl].
    - now eexists.
    - apply Nat.ltb_lt in Hl. rewrite Hl.
      destruct (hd None arguments); now eexists. }
  split; [exact Hr |].
  destruct Hr as [message Hr]. intros h. rewrite Hr. discriminate.
Qed.

(** C10. A POST request whose body is the empty array is answered with
    the content type [application/json] and the body [[]], the status
    left alone, and the executor is not called. *)
Theorem empty_batch_response options req res :
  Request.method req = "POST" ->
  Request.body req = JArr [] ->
  handler options req res
  = (Ok {| Response.statusCode := Response.statusCode res;
           Response.headers :=
             Response.put "Content-Type" "application/json" (Response.headers res);
           Response.sent := Some "[]" |},
     []).
Proof.
  intros Hm Hb. rewrite (handler_post _ _ _ Hm); [| now rewrite Hb].
  now rewrite Hb.
Qed.

(* ================================================================== *)
(** ** Further properties of the request handler *)
(* ================================================================== *)

(** The executor calls of a request: as many as the body has items at
    most, none with a falsy query. *)
Lemma handler_calls options req res :
  List.length (snd (handler options req res))
  <= List.length (snd (normalize (Request.body req)))
  /\ Forall (fun params => truthy (Params.query params) = true)
            (snd (handler options req res)).
Proof.
  destruct (String.eqb (Request.method req) "POST") eqn:Hm.
  2:{ unfold handler. rewrite Hm. cbn. split; [lia | constructor]. }
  apply String.eqb_eq in Hm.
  destruct (truthy (Request.body req)) eqn:Ht.
  2:{ unfold handler. rewrite Hm, Ht. cbn. split; [lia | constructor]. }
  rewrite (handler_post _ _ _ Hm Ht).
  destruct (processAll_calls (resolveOptions options req)
              (snd (normalize (Request.body req))) [] [])
    as [made [Hs [Hl Hf]]].
  destruct (processAll (resolveOptions options req)
              (snd (normalize (Request.body req))) ([], []))
    as [[responses | e] calls]; cbn [snd] in *; subst calls; cbn [app];
    split; assumption.
Qed.

(** X1. A POST request whose body is present but falsy (null, false,
    zero, the empty text) is answered like one without a body: status
    500, the body-parser reminder, no executor call. *)
Theorem falsy_body_rejected options req res :
  Request.method req = "POST" ->
  truthy (Request.body req) = false ->
  handler options req res
  = (Ok {| Response.statusCode := 500;
           Response.headers := Response.headers res;
           Response.sent := Some body_missing_body |},
     []).
Proof.
  intros Hm Ht. unfold handler. now rewrite Hm, Ht.
Qed.

(** X3. The executor is called at most once per item: at most as often
    as a batch has items, at most once for a body that is not an array. *)
Theorem executor_calls_bounded options req res :
  List.length (snd (handler options req res))
  <= match Request.body req with
     | JArr items => List.length items
     | _ => 1
     end.
Proof.
  pose proof (proj1 (handler_calls options req res)) as H.
  destruct (Request.body req); exact H.
Qed.

(** X4. The executor is never called with parameters whose query is
    falsy, whatever the transform returns. *)
Theorem executor_never_called_without_query options req res :
  Forall (fun params => truthy (Params.query params) = true)
         (snd (handler options req res)).
Proof. exact (proj2 (handler_calls options req res)). Qed.

(** X6. When no step of the try block throws, the item's result is the
    executor's, untouched, and the executor was called once, with the
    parameters the transform returned. *)
Theorem success_passes_through
        optionsObject item query operationName variables parsed final result calls :
  extractFields item = Ok (query, operationName, variables) ->
  parseVariables variables = Ok parsed ->
  applyFormatParams optionsObject
    (assembleParams optionsObject query parsed operationName) = Ok final ->
  truthy (Params.query final) = true ->
  runQuery calls final = Ok result ->
  processItem optionsObject item calls = (Ok result, (calls ++ [final])%list).
Proof.
  intros Hx Hp Hf Hq Hr.
  apply processItem_ok.
  rewrite (tryBlock_parsed _ _ _ _ _ _ _ Hx Hp).
  rewrite (executeParams_transformed _ _ _ _ Hf), Hq. now rewrite Hr.
Qed.

(** X7. Without a transform, the one executor call of an item that is an
    object with a truthy query and variables that are not a text carries
    the item's three properties as they are and, of the configuration,
    the schema, the root value, the logging function, the validation
    rules, the response formatter and the error formatter in use; the
    item gets the executor's result, or what the catch block makes of
    the executor's rejection. *)
Theorem executor_receives_item_fields optionsObject fields calls :
  ExpressApolloOptions.formatParams optionsObject = None ->
  truthy (lookup "query" fields) = true ->
  (forall text, lookup "variables" fields <> JStr text) ->
  let params :=
    {| Params.schema := ExpressApolloOptions.schema optionsObject;
       Params.query := lookup "query" fields;
       Params.variables := lookup "variables" fields;
       Params.rootValue := ExpressApolloOptions.rootValue optionsObject;
       Params.operationName := lookup "operationName" fields;
       Params.logFunction := ExpressApolloOptions.logFunction optionsObject;
       Params.validationRules :=
         ExpressApolloOptions.validationRules optionsObject;
       Params.formatError := formatErrorFn optionsObject;
       Params.formatResponse :=
         ExpressApolloOptions.formatResponse optionsObject |} in
  processItem optionsObject (JObj fields) calls
  = (match runQuery calls params with
     | Ok result => Ok result
     | Raise e => errorResult optionsObject e
     end,
     (calls ++ [params])%list).
Proof.
  intros Hf Hq Hv params.
  assert (Hx : extractFields (JObj fields)
               = Ok (lookup "query" fields, lookup "operationName" fields,
                     lookup "variables" fields)) by reflexivity.
  assert (Hp : parseVariables (lookup "variables" fields)
               = Ok (lookup "variables" fields)).
  { destruct (lookup "variables" fields) eqn:E; try reflexivity.
    now elim (Hv s). }
  unfold processItem.
  rewrite (tryBlock_parsed _ _ _ _ _ _ _ Hx Hp).
  rewrite (executeParams_transformed optionsObject _ params).
  - cbn [Params.query params]. rewrite Hq.
    destruct (runQuery calls params); reflexivity.
  - unfold applyFormatParams. now rewrite Hf.
Qed.

(** X8. A truthy body that is neither an array nor an object (a number,
    a text, true) is processed as an item without properties: without a
    transform it fails the query check, and when the formatter returns
    for that error the status is 400, the body is the error result and
    the executor is not called. *)
Theorem primitive_body_fails_query_check options req res optionsObject formatted :
  Request.method req = "POST" ->
  truthy (Request.body req) = true ->
  isArray (Request.body req) = false ->
  (forall fields, Request.body req <> JObj fields) ->
  configures options req optionsObject ->
  ExpressApolloOptions.formatParams optionsObject = None ->
  formatErrorFn optionsObject (Error "Must provide query string.")
  = Ok formatted ->
  handler options req res
  = (Ok {| Response.statusCode := 400;
           Response.headers :=
             Response.put "Content-Type" "application/json" (Response.headers res);
           Response.sent :=
             Some (JSON_stringify
                     (GraphQLResult.value
                        {| GraphQLResult.data := JUndefined;
                           GraphQLResult.errors := Some [formatted] |})) |},
     []).
Proof.
  intros Hm Ht Ha Ho Hc Hf He.
  rewrite (handler_post _ _ _ Hm Ht).
  rewrite (configures_resolveOptions _ _ _ Hc).
  assert (Hn : normalize (Request.body req) = (false, [Request.body req]))
    by (destruct (Request.body req); try reflexivity; discriminate Ha).
  assert (Hx : extractFields (Request.body req)
               = Ok (JUndefined, JUndefined, JUndefined)).
  { destruct (Request.body req) as [| | | | | |fields];
      try discriminate Ht; try discriminate Ha; try reflexivity.
    now elim (Ho fields). }
  assert (Hp : processItem optionsObject (Request.body req) []
               = (errorResult optionsObject
                    (Error "Must provide query string."), [])).
  { apply processItem_raise.
    rewrite (tryBlock_parsed _ _ _ _ _ _ _ Hx eq_refl).
    rewrite (executeParams_transformed _ _
               (assembleParams optionsObject JUndefined JUndefined JUndefined)).
    - reflexivity.
    - unfold applyFormatParams. now rewrite Hf. }
  rewrite Hn. cbn [fst snd processAll]. rewrite Hp.
  unfold errorResult. rewrite He. reflexivity.
Qed.

(** X11. The factory returns a handler exactly when it is called with
    one argument that is neither undefined nor null, and the handler is
    the one of that argument. *)
Theorem factory_returns_handler_iff arguments h :
  graphqlHTTP arguments = Ok h
  <-> exists options, arguments = [Some options] /\ h = handler options.
Proof.
  split.
  - unfold graphqlHTTP.
    destruct arguments as [| [options |] rest]; cbn; try discriminate.
    destruct rest as [| a rest]; cbn; [| discriminate].
    intros H. inversion H; subst. now exists options.
  - intros [options [-> ->]]. reflexivity.
Qed.

(** X12. When the first argument is present and more follow, the error
    message reports one more than the number of arguments. *)
Theorem factory_reports_one_argument_too_many arguments options :
  hd None arguments = Some options ->
  1 < List.length arguments ->
  graphqlHTTP arguments
  = Raise (Error ("Apollo Server expects exactly one argument, got "
                  ++ digits (N.of_nat (S (List.length arguments))))).
Proof.
  intros Hh Hl. unfold graphqlHTTP. rewrite Hh.
  apply Nat.ltb_lt in Hl. rewrite Hl.
  now rewrite Nat.add_1_r.
Qed.

(** When the first argument is undefined or null, the factory
    refuses with the message of a missing configuration, however many
    arguments follow. *)
Theorem factory_refuses_undefined_options arguments rest :
  arguments = None :: rest ->
  graphqlHTTP arguments = Raise (Error "Apollo Server requires options.").
Proof. intros ->. reflexivity. Qed.

Lemma append_assoc (a b c : string) : (a ++ b) ++ c = a ++ b ++ c.
Proof. induction a as [| x a IH]; cbn; [reflexivity | now rewrite IH]. Qed.

(** X13. On the wire a failed item is the object with the single key
    [errors], holding the one formatted error. *)
Theorem error_result_wire_format optionsObject e result :
  errorResult optionsObject e = Ok result ->
  exists formatted,
    formatErrorFn optionsObject e = Ok formatted
    /\ JSON_stringify (GraphQLResult.value result)
       = "{" ++ in_quotes "errors" ++ ":["
         ++ JSON_stringify formatted ++ "]}".
Proof.
  unfold errorResult.
  destruct (formatErrorFn optionsObject e) as [formatted | e']; [| discriminate].
  intros H. inversion H; subst. exists formatted. split; [reflexivity |].
  cbn. now rewrite append_assoc.
Qed.

(** X18. When a step of a batch item throws and the error formatter
    throws on what was thrown, the loop stops there: the handler rejects
    with the formatter's error, nothing is sent, and the items after it
    are not processed. *)
Theorem formatter_failure_aborts
        options req res optionsObject before item after responses calls e e' :
  Request.method req = "POST" ->
  Request.body req = JArr (before ++ item :: after)%list ->
  configures options req optionsObject ->
  processAll optionsObject before ([], []) = (Ok responses, calls) ->
  stepRaises optionsObject item calls e ->
  match ExpressApolloOptions.formatError optionsObject with
  | Some f => f e
  | None => graphql_formatError e
  end = Raise e' ->
  exists made,
    (made = [] \/ exists params, made = [params])
    /\ handler options req res = (Raise e', (calls ++ made)%list).
Proof.
  intros Hm Hb Hc Hp He Hf.
  destruct (stepRaises_tryBlock _ _ _ _ He) as [made Ht].
  exists made. split.
  { pose proof (tryBlock_calls optionsObject item calls) as Hcalls.
    rewrite Ht in Hcalls. cbn [snd] in Hcalls.
    destruct Hcalls as [H | [p [H _]]].
    - left. apply (app_inv_head calls). now rewrite app_nil_r.
    - right. exists p. now apply (app_inv_head calls). }
  rewrite (handler_post _ _ _ Hm); [| now rewrite Hb].
  rewrite (configures_resolveOptions _ _ _ Hc), Hb. cbn [normalize fst snd].
  rewrite processAll_app, Hp. cbn [processAll fst snd].
  rewrite (processItem_raise _ _ _ _ _ Ht).
  unfold errorResult, formatErrorFn.
  destruct (ExpressApolloOptions.formatError optionsObject); rewrite Hf;
    reflexivity.
Qed.

End Handler.

(* ================================================================== *)
(** ** JSON.parse never runs out of fuel *)
(* ================================================================== *)

(** Each reader hands back less input than it was given. *)
Lemma skip_ws_length s : String.length (skip_ws s) <= String.length s.
Proof.
  induction s as [| c r IH]; simpl; [lia |].
  destruct (is_ws c); simpl; lia.
Qed.

Lemma read_digits_length s : forall acc n v k rest,
  read_digits s acc n = (v, k, rest) ->
  String.length rest <= String.length s /\ (k = 0 -> n = 0).
Proof.
  induction s as [| c r IH]; intros acc n v k rest; simpl.
  - intros H. inversion H; subst. auto.
  - destruct (is_digit c).
    + intros H. apply IH in H. destruct H as [H1 H2]. split; [lia |].
      intros Hk. apply H2 in Hk. discriminate.
    + intros H. inversion H; subst. auto.
Qed.

Lemma starts_with_length c s rest :
  starts_with c s = Some rest -> String.length s = S (String.length rest).
Proof.
  destruct s as [| c' r]; simpl; [discriminate |].
  destruct (Ascii.eqb c c'); [| discriminate].
  intros H. inversion H; subst. reflexivity.
Qed.

Lemma cons_fst_some {A B} (a : A) (r : option (list A * B)) l b :
  cons_fst a r = Some (l, b) -> exists l', r = Some (l', b) /\ l = a :: l'.
Proof.
  destruct r as [[l' b'] |]; simpl; [| discriminate].
  intros H. inversion H; subst. eauto.
Qed.

Lemma read_string_length_bounded n : forall s units rest,
  String.length s <= n ->
  read_string s = Some (units, rest) -> String.length rest < String.length s.
Proof.
  induction n as [| n IH]; intros s units rest Hn.
  - destruct s; simpl in *; [discriminate | lia].
  - destruct s as [| c r]; simpl; [discriminate |].
    simpl in Hn.
    destruct (Ascii.eqb c dquote).
    { intros H. inversion H; subst. lia. }
    destruct (N.ltb (code c) 32); [discriminate |].
    destruct (Ascii.eqb c backslash).
    + destruct r as [| e r1]; [discriminate |].
      destruct (simple_escape e).
      * intros H. apply cons_fst_some in H. destruct H as [l' [H _]].
        apply IH in H; simpl in *; lia.
      * destruct (N.eqb (code e) 117); [| discriminate].
        destruct r1 as [| h1 [| h2 [| h3 [| h4 r2]]]]; try discriminate.
        destruct (hex4 h1 h2 h3 h4); [| discriminate].
        intros H. apply cons_fst_some in H. destruct H as [l' [H _]].
        apply IH in H; simpl in *; lia.
    + intros H. apply cons_fst_some in H. destruct H as [l' [H _]].
      apply IH in H; simpl in *; lia.
Qed.

Lemma parse_string_length s str rest :
  parse_string s = Some (str, rest) -> String.length rest < String.length s.
Proof.
  unfold parse_string.
  destruct (read_string s) as [[units rest'] |] eqn:H; [| discriminate].
  intros E. inversion E; subst.
  now apply (read_string_length_bounded (String.length s)) in H.
Qed.

Lemma read_fraction_length s ip m fd rest :
  read_fraction s ip = Some (m, fd, rest) -> String.length rest <= String.length s.
Proof.
  unfold read_fraction. destruct s as [| c r].
  - intros H. inversion H; subst. lia.
  - destruct (N.eqb (code c) 46).
    + destruct (read_digits r ip 0) as [[v k] rest'] eqn:Hd.
      apply read_digits_length in Hd. destruct Hd as [Hd _].
      destruct k; [discriminate |].
      intros H. inversion H; subst. simpl. lia.
    + intros H. inversion H; subst. lia.
Qed.

Lemma read_exponent_length s e rest :
  read_exponent s = Some (e, rest) -> String.length rest <= String.length s.
Proof.
  unfold read_exponent. destruct s as [| c r].
  - intros H. inversion H; subst. lia.
  - destruct (N.eqb (code c) 101 || N.eqb (code c) 69)%bool.
    + assert (Hs : forall (neg : bool) r1, String.length r1 <= String.length r ->
                match read_digits r1 0 0 with
                | (_, O, _) => None
                | (v, _, rest0) => Some (if neg then Z.opp v else v, rest0)
                end = Some (e, rest) ->
                String.length rest <= String.length (String c r)).
      { intros neg r1 Hr.
        destruct (read_digits r1 0 0) as [[v k] rest'] eqn:Hd.
        apply read_digits_length in Hd. destruct Hd as [Hd _].
        destruct k; [discriminate |].
        intros H. inversion H; subst. simpl. lia. }
      destruct r as [| d r'].
      * apply (Hs false). lia.
      * destruct (N.eqb (code d) 45); [apply (Hs true); simpl; lia |].
        destruct (N.eqb (code d) 43); [apply (Hs false); simpl; lia |].
        apply (Hs false). lia.
    + intros H. inversion H; subst. lia.
Qed.

Lemma parse_number_length s num rest :
  parse_number s = Some (num, rest) -> String.length rest < String.length s.
Proof.
  unfold parse_number.
  assert (Hs : forall (neg : bool) s1, String.length s1 <= String.length s ->
    match s1 with
    | String c r =>
        if is_digit c then
          let '(ip, s2) :=
            if N.eqb (code c) 48 then (0%Z, r)
            else let '(v, _, r') := read_digits s1 0 0 in (v, r') in
          match read_fraction s2 ip with
          | Some (m, fd, s3) =>
              match read_exponent s3 with
              | Some (e, s4) => Some (make_number neg m fd e, s4)
              | None => None
              end
          | None => None
          end
        else None
    | EmptyString => None
    end = Some (num, rest) -> String.length rest < String.length s).
  { intros neg s1 Hl. destruct s1 as [| c r]; [discriminate |].
    destruct (is_digit c) eqn:Hc; [| discriminate].
    assert (Hip : forall ip s2, String.length s2 <= String.length r ->
       match read_fraction s2 ip with
       | Some (m, fd, s3) =>
           match read_exponent s3 with
           | Some (e, s4) => Some (make_number neg m fd e, s4)
           | None => None
           end
       | None => None
       end = Some (num, rest) -> String.length rest < String.length s).
    { intros ip s2 H2.
      destruct (read_fraction s2 ip) as [[[m fd] s3] |] eqn:Hf; [| discriminate].
      apply read_fraction_length in Hf.
      destruct (read_exponent s3) as [[e s4] |] eqn:He; [| discriminate].
      apply read_exponent_length in He.
      intros H. inversion H; subst. simpl in Hl. lia. }
    destruct (N.eqb (code c) 48).
    - apply (Hip 0%Z r). lia.
    - destruct (read_digits (String c r) 0 0) as [[v k] r'] eqn:Hd.
      simpl in Hd. rewrite Hc in Hd. apply read_digits_length in Hd.
      apply (Hip v r'). lia. }
  destruct s as [| c r]; [discriminate |].
  destruct (N.eqb (code c) 45).
  - intros H. apply (Hs true r) in H; [exact H | simpl; lia].
  - apply (Hs false (String c r)). lia.
Qed.

Lemma literal_length word v s x rest :
  word <> EmptyString ->
  literal word v s = Some (x, rest) -> String.length rest < String.length s.
Proof.
  intros Hw. unfold literal.
  destruct (String.prefix word s) eqn:Hp; [| discriminate].
  intros H. inversion H; subst.
  assert (Hl : String.length word <= String.length s).
  { clear - Hp. revert s Hp. induction word as [| a w IH]; intros s Hp; simpl; [lia |].
    destruct s as [| b s']; simpl in Hp; [discriminate |].
    destruct (Ascii.ascii_dec a b); [| discriminate].
    apply IH in Hp. simpl. lia. }
  assert (Hw' : 0 < String.length word) by (destruct word; [congruence | simpl; lia]).
  assert (Hsub : forall n m t, n + m = String.length t -> String.length (substring n m t) = m).
  { clear. intros n m t. revert n m. induction t as [| a t IH]; intros n m H.
    - simpl in H. assert (n = 0) by lia. assert (m = 0) by lia. subst. reflexivity.
    - destruct n as [| n].
      + destruct m as [| m]; [reflexivity |]. simpl. f_equal.
        apply (IH 0 m). simpl in H. lia.
      + simpl. apply IH. simpl in H. lia. }
  rewrite Hsub; lia.
Qed.

Lemma parse_consumes n :
  (forall s v rest, parse_value n s = Some (v, rest) ->
                    String.length rest < String.length s)
  /\ (forall s vs rest, parse_elements n s = Some (vs, rest) ->
                        String.length rest < String.length s)
  /\ (forall s ms rest, parse_members n s = Some (ms, rest) ->
                        String.length rest < String.length s).
Proof.
  induction n as [| n [IHv [IHe IHm]]].
  - repeat split; intros; discriminate.
  - split; [| split].
    + intros s v rest. cbn [parse_value].
      destruct s as [| c r]; [discriminate |].
      pose proof (skip_ws_length r) as Hw.
      destruct (N.eqb (code c) 123).
      { destruct (starts_with (char 125) (skip_ws r)) as [rest0 |] eqn:Hs.
        - apply starts_with_length in Hs.
          intros H. inversion H; subst. simpl. lia.
        - destruct (parse_members n (skip_ws r)) as [[ms rest0] |] eqn:Hm;
            [| discriminate].
          apply IHm in Hm. intros H. inversion H; subst. simpl. lia. }
      destruct (N.eqb (code c) 91).
      { destruct (starts_with (char 93) (skip_ws r)) as [rest0 |] eqn:Hs.
        - apply starts_with_length in Hs.
          intros H. inversion H; subst. simpl. lia.
        - destruct (parse_elements n (skip_ws r)) as [[vs rest0] |] eqn:He;
            [| discriminate].
          apply IHe in He. intros H. inversion H; subst. simpl. lia. }
      destruct (N.eqb (code c) 34).
      { destruct (parse_string r) as [[str rest0] |] eqn:Hs; [| discriminate].
        apply parse_string_length in Hs.
        intros H. inversion H; subst. simpl. lia. }
      destruct (N.eqb (code c) 116); [apply literal_length; discriminate |].
      destruct (N.eqb (code c) 102); [apply literal_length; discriminate |].
      destruct (N.eqb (code c) 110); [apply literal_length; discriminate |].
      destruct (parse_number (String c r)) as [[num rest0] |] eqn:Hn;
        [| discriminate].
      apply parse_number_length in Hn.
      intros H. inversion H; subst. exact Hn.
    + intros s vs rest. cbn [parse_elements].
      destruct (parse_value n s) as [[v rest0] |] eqn:Hv; [| discriminate].
      apply IHv in Hv.
      pose proof (skip_ws_length rest0) as Hw.
      destruct (skip_ws rest0) as [| c r]; [discriminate |].
      simpl in Hw.
      destruct (N.eqb (code c) 44).
      * intros H. apply cons_fst_some in H. destruct H as [l' [H _]].
        apply IHe in H. pose proof (skip_ws_length r). lia.
      * destruct (N.eqb (code c) 93); [| discriminate].
        intros H. inversion H; subst. lia.
    + intros s ms rest. cbn [parse_members].
      destruct (starts_with dquote s) as [r |] eqn:Hq; [| discriminate].
      apply starts_with_length in Hq.
      destruct (parse_string r) as [[k rest0] |] eqn:Hk; [| discriminate].
      apply parse_string_length in Hk.
      pose proof (skip_ws_length rest0) as Hw0.
      destruct (starts_with (char 58) (skip_ws rest0)) as [rest1 |] eqn:Hc;
        [| discriminate].
      apply starts_with_length in Hc.
      pose proof (skip_ws_length rest1) as Hw1.
      destruct (parse_value n (skip_ws rest1)) as [[v rest2] |] eqn:Hv;
        [| discriminate].
      apply IHv in Hv.
      pose proof (skip_ws_length rest2) as Hw2.
      destruct (skip_ws rest2) as [| c r2]; [discriminate |].
      simpl in Hw2.
      destruct (N.eqb (code c) 44).
      * intros H. apply cons_fst_some in H. destruct H as [l' [H _]].
        apply IHm in H. pose proof (skip_ws_length r2). lia.
      * destruct (N.eqb (code c) 125); [| discriminate].
        intros H. inversion H; subst. lia.
Qed.

(** The verdict of the parser does not depend on the fuel, once the
    fuel is above twice the length of the input. *)
Lemma parse_fuel n :
  (forall s m, 2 * String.length s + 1 <= n -> 2 * String.length s + 1 <= m ->
               parse_value n s = parse_value m s)
  /\ (forall s m, 2 * String.length s + 2 <= n -> 2 * String.length s + 2 <= m ->
                  parse_elements n s = parse_elements m s)
  /\ (forall s m, 2 * String.length s + 2 <= n -> 2 * String.length s + 2 <= m ->
                  parse_members n s = parse_members m s).
Proof.
  induction n as [| n [IHv [IHe IHm]]].
  - repeat split; intros; lia.
  - split; [| split].
    + intros s m Hn Hm. destruct m as [| m]; [lia |].
      cbn [parse_value].
      destruct s as [| c r]; [reflexivity |].
      pose proof (skip_ws_length r) as Hw. simpl in Hn, Hm.
      rewrite (IHm (skip_ws r) m) by lia.
      rewrite (IHe (skip_ws r) m) by lia.
      reflexivity.
    + intros s m Hn Hm. destruct m as [| m]; [lia |].
      cbn [parse_elements].
      rewrite (IHv s m) by lia.
      destruct (parse_value m s) as [[v rest0] |] eqn:Hv; [| reflexivity].
      apply (proj1 (parse_consumes m)) in Hv.
      pose proof (skip_ws_length rest0) as Hw.
      destruct (skip_ws rest0) as [| c r]; [reflexivity |].
      simpl in Hw. pose proof (skip_ws_length r).
      rewrite (IHe (skip_ws r) m) by lia.
      reflexivity.
    + intros s m Hn Hm. destruct m as [| m]; [lia |].
      cbn [parse_members].
      destruct (starts_with dquote s) as [r |] eqn:Hq; [| reflexivity].
      apply starts_with_length in Hq.
      destruct (parse_string r) as [[k rest0] |] eqn:Hk; [| reflexivity].
      apply parse_string_length in Hk.
      pose proof (skip_ws_length rest0) as Hw0.
      destruct (starts_with (char 58) (skip_ws rest0)) as [rest1 |] eqn:Hc;
        [| reflexivity].
      apply starts_with_length in Hc.
      pose proof (skip_ws_length rest1) as Hw1.
      rewrite (IHv (skip_ws rest1) m) by lia.
      destruct (parse_value m (skip_ws rest1)) as [[v rest2] |] eqn:Hv;
        [| reflexivity].
      apply (proj1 (parse_consumes m)) in Hv.
      pose proof (skip_ws_length rest2) as Hw2.
      destruct (skip_ws rest2) as [| c r2]; [reflexivity |].
      simpl in Hw2. pose proof (skip_ws_length r2).
      rewrite (IHm (skip_ws r2) m) by lia.
      reflexivity.
Qed.

(** [JSON.parse] never fails for want of fuel: more fuel gives the same
    verdict. *)
Lemma parse_value_fuel s n :
  2 * String.length s + 1 <= n ->
  parse_value n (skip_ws s) = parse_value (2 * String.length s + 1) (skip_ws s).
Proof.
  intros Hn. pose proof (skip_ws_length s).
  apply (proj1 (parse_fuel n)); lia.
Qed.

(** The parser on a few texts. *)
Example parse_a1 : JSON_parse a1_text = Ok (JObj [("a", JInt 1)]).
Proof. vm_compute. reflexivity. Qed.

Example parse_empty_object : JSON_parse "{}" = Ok (JObj []).
Proof. vm_compute. reflexivity. Qed.

Example parse_unquoted_key : JSON_parse "{a:1}" = Raise SyntaxError.
Proof. vm_compute. reflexivity. Qed.

Example parse_empty_text : JSON_parse EmptyString = Raise SyntaxError.
Proof. vm_compute. reflexivity. Qed.

Example parse_nested :
  JSON_parse (" [1, -2.50, 1e2, true, null, " ++ in_quotes "x\ny"
              ++ ", {" ++ in_quotes "k" ++ ": []}] ")
  = Ok (JArr [JInt 1; JNum (mkNumber (-25) 1); JInt 100; JBool true; JNull;
              JStr ("x" ++ str1 (char 10) ++ "y"); JObj [("k", JArr [])]]).
Proof. vm_compute. reflexivity. Qed.

Example stringify_nested :
  JSON_stringify
    (JArr [JInt 1; JNum (mkNumber (-25) 1); JUndefined;
           JObj [("k", JArr []); ("u", JUndefined); ("s", JStr "x")]])
  = "[1,-2.5,null,{" ++ in_quotes "k" ++ ":[]," ++ in_quotes "s" ++ ":"
    ++ in_quotes "x" ++ "}]".
Proof. vm_compute. reflexivity. Qed.

(* ================================================================== *)
(** ** Properties of the explorer middleware *)
(* ================================================================== *)

Section ExplorerFacts.

Variable render : GraphiQLData.t -> string.

(** A request without a [variables] parameter, or with an empty one, is
    rendered with the empty object, whatever the configured variables. *)
Lemma graphiQLData_variables_not_supplied options req :
  text_or (param "variables"
             (match Request.query req with Some q => q | None => [] end)) "{}"
  = "{}" ->
  exists data,
    graphiQLData options req = Ok data
    /\ GraphiQLData.variables data = JObj [].
Proof.
  intros H. unfold graphiQLData. rewrite H.
  change (JSON_parse "{}") with (Ok (JObj [])).
  eexists. split; reflexivity.
Qed.

(** The query and the operation name do fall back on the configured
    ones when the request leaves them out. *)
Lemma graphiQLData_text_defaults options req data :
  graphiQLData options req = Ok data ->
  let q := match Request.query req with Some q => q | None => [] end in
  GraphiQLData.query data
  = text_or_option (text_or (param "query" q) EmptyString)
      (GraphiQLData.query options)
  /\ GraphiQLData.operationName data
     = text_or_option (text_or (param "operationName" q) EmptyString)
         (GraphiQLData.operationName options)
  /\ GraphiQLData.endpointURL data = GraphiQLData.endpointURL options.
Proof.
  unfold graphiQLData.
  destruct (JSON_parse _) as [parsed | e]; [| discriminate].
  intros H. inversion H; subst. cbn. repeat split.
Qed.

(** C4, the code at the failing input: the explorer is configured with
    the default variables [{a: 1}] and the request has no query
    parameters.  The page is rendered with the configured query and
    operation name, but with the empty object for the variables: the
    text [{}] that stands in for the missing parameter parses to an
    object, which is truthy, so the configured variables are not used. *)
Theorem explorer_drops_configured_variables res :
  renderGraphiQL render explorer_options get_request res
  = Ok (Response.send
          (render {| GraphiQLData.endpointURL := "/graphql";
                     GraphiQLData.query := Some "{ me }";
                     GraphiQLData.variables := JObj [];
                     GraphiQLData.operationName := Some "Me" |})
          (Response.setHeader "Content-Type" "text/html" res))
  /\ GraphiQLData.variables explorer_options = JObj [("a", JInt 1)].
Proof. split; reflexivity. Qed.

(** With [?query=foo] the query is overridden and the operation name is
    the configured one; the variables are again the empty object. *)
Example explorer_query_only :
  graphiQLData explorer_options (get_with [("query", "foo")])
  = Ok {| GraphiQLData.endpointURL := "/graphql";
          GraphiQLData.query := Some "foo";
          GraphiQLData.variables := JObj [];
          GraphiQLData.operationName := Some "Me" |}.
Proof. reflexivity. Qed.

(** The configured variables are used when the parameter is supplied and
    parses to a falsy value. *)
Example explorer_null_variables :
  graphiQLData explorer_options (get_with [("variables", "null")])
  = Ok {| GraphiQLData.endpointURL := "/graphql";
          GraphiQLData.query := Some "{ me }";
          GraphiQLData.variables := JObj [("a", JInt 1)];
          GraphiQLData.operationName := Some "Me" |}.
Proof. reflexivity. Qed.

(** A [variables] parameter that does not parse makes the middleware
    throw. *)
Example explorer_bad_variables :
  renderGraphiQL render explorer_options (get_with [("variables", "{a:1}")])
    Response.fresh
  = Raise SyntaxError.
Proof. reflexivity. Qed.

(** [x || d] when [x] is a text that is not empty. *)
Lemma text_or_supplied text d :
  text <> EmptyString -> text_or (Some text) d = text.
Proof.
  intros H. unfold text_or. apply String.eqb_neq in H. now rewrite H.
Qed.

Lemma text_or_option_supplied text d :
  text <> EmptyString -> text_or_option text d = Some text.
Proof.
  intros H. unfold text_or_option. apply String.eqb_neq in H. now rewrite H.
Qed.

(** X14. When the page is rendered, a query or an operation name that
    the request supplies and that is not empty is the one rendered; one
    that is missing or empty is replaced by the configured one; the
    endpoint is always the configured one. *)
Theorem explorer_text_fields options req data :
  graphiQLData options req = Ok data ->
  let q := match Request.query req with Some q => q | None => [] end in
  (forall text, param "query" q = Some text -> text <> EmptyString ->
                GraphiQLData.query data = Some text)
  /\ (param "query" q = None \/ param "query" q = Some EmptyString ->
      GraphiQLData.query data = GraphiQLData.query options)
  /\ (forall text, param "operationName" q = Some text -> text <> EmptyString ->
                   GraphiQLData.operationName data = Some text)
  /\ (param "operationName" q = None \/ param "operationName" q = Some EmptyString ->
      GraphiQLData.operationName data = GraphiQLData.operationName options)
  /\ GraphiQLData.endpointURL data = GraphiQLData.endpointURL options.
Proof.
  intros H q.
  destruct (graphiQLData_text_defaults _ _ _ H) as [Hq [Ho He]].
  fold q in Hq, Ho. rewrite Hq, Ho.
  repeat split.
  - intros text Hp Ht. rewrite Hp, (text_or_supplied _ _ Ht).
    now apply text_or_option_supplied.
  - intros [-> | ->]; reflexivity.
  - intros text Hp Ht. rewrite Hp, (text_or_supplied _ _ Ht).
    now apply text_or_option_supplied.
  - intros [-> | ->]; reflexivity.
  - exact He.
Qed.

(** X16. When the request supplies no [variables] text, or an empty one,
    the page is sent with the empty object for the variables, whatever
    variables are configured. *)
Theorem explorer_variables_not_supplied options req res :
  (let supplied :=
     param "variables" (match Request.query req with Some q => q | None => [] end) in
   supplied = None \/ supplied = Some EmptyString) ->
  exists data,
    renderGraphiQL render options req res
    = Ok {| Response.statusCode := Response.statusCode res;
            Response.headers :=
              Response.put "Content-Type" "text/html" (Response.headers res);
            Response.sent := Some (render data) |}
    /\ GraphiQLData.variables data = JObj [].
Proof.
  cbv zeta. intros H.
  assert (Ht : text_or (param "variables"
                 (match Request.query req with Some q => q | None => [] end)) "{}"
               = "{}") by (destruct H as [-> | ->]; reflexivity).
  unfold renderGraphiQL, graphiQLData. rewrite Ht.
  change (JSON_parse "{}") with (Ok (JObj [])).
  eexists. split; reflexivity.
Qed.

(** X17. When the request supplies a [variables] text that does not
    parse, the middleware throws the parse error and sends nothing. *)
Theorem explorer_unparsable_variables_throw options req res text e :
  param "variables" (match Request.query req with Some q => q | None => [] end)
  = Some text ->
  text <> EmptyString ->
  JSON_parse text = Raise e ->
  renderGraphiQL render options req res = Raise e.
Proof.
  intros Hp Ht Hj. unfold renderGraphiQL, graphiQLData.
  now rewrite Hp, (text_or_supplied _ _ Ht), Hj.
Qed.

End ExplorerFacts.

(* ================================================================== *)
(** ** The properties on sample requests *)
(* ================================================================== *)

(** The message of the factory counts one argument too many
    (line 52 adds one to [arguments.length]). *)
Example factory_two_arguments_message :
  graphqlHTTP echo_runQuery message_formatError JSON_parse
    [Some (Static plain_options); Some (Static plain_options)]
  = Raise (Error "Apollo Server expects exactly one argument, got 3").
Proof. reflexivity. Qed.

(** An argument that is undefined or null is refused like a missing one. *)
Example factory_undefined_argument :
  graphqlHTTP echo_runQuery message_formatError JSON_parse [None]
  = Raise (Error "Apollo Server requires options.").
Proof. reflexivity. Qed.

(** With one argument the factory returns the handler. *)
Example factory_one_argument :
  graphqlHTTP echo_runQuery message_formatError JSON_parse
    [Some (Static plain_options)]
  = Ok (handler echo_runQuery message_formatError JSON_parse
          (Static plain_options)).
Proof. reflexivity. Qed.

(** A body that is a single object whose executor result has data: the
    status is left at 200. *)
Example single_success_status :
  fst (handler echo_runQuery message_formatError JSON_parse
         (Static plain_options) (post item_ok) Response.fresh)
  = Ok {| Response.statusCode := 200;
          Response.headers := [("Content-Type", "application/json")];
          Response.sent :=
            Some ("{" ++ in_quotes "data" ++ ":{" ++ in_quotes "variables"
                  ++ ":{" ++ in_quotes "a" ++ ":1}}}") |}.
Proof. vm_compute. reflexivity. Qed.

(** A batch of three: the first item succeeds, the second has no query,
    the variables of the third do not parse.  The response read back. *)
Example batch3_response :
  exists body,
    handler echo_runQuery message_formatError JSON_parse (Static plain_options)
      (post (JArr batch3)) Response.fresh
    = (Ok {| Response.statusCode := 200;
             Response.headers := [("Content-Type", "application/json")];
             Response.sent := Some body |},
       [assembleParams message_formatError plain_options
          (JStr "{ me }") (JObj [("a", JInt 1)]) JUndefined])
    /\ JSON_parse body
       = Ok (JArr
               [JObj [("data", JObj [("variables", JObj [("a", JInt 1)])])];
                JObj [("errors",
                       JArr [JObj [("message", JStr "Must provide query string.")]])];
                JObj [("errors", JArr [JObj [("message", JStr "SyntaxError")]])]]).
Proof.
  eexists. split.
  - vm_compute. reflexivity.
  - vm_compute. reflexivity.
Qed.

(** A transform that blanks the query makes the item fail although the
    request supplied a query. *)
Example blanked_query_fails :
  processItem echo_runQuery message_formatError JSON_parse
    blanking_options item_ok []
  = (Ok {| GraphQLResult.data := JUndefined;
           GraphQLResult.errors :=
             Some [JObj [("message", JStr "Must provide query string.")]] |},
     []).
Proof. vm_compute. reflexivity. Qed.

(** An item that is [null] fails at the first property read. *)
Example null_item_fails :
  processItem echo_runQuery message_formatError JSON_parse plain_options JNull []
  = (Ok {| GraphQLResult.data := JUndefined;
           GraphQLResult.errors := Some [JObj [("message", JStr "TypeError")]] |},
     []).
Proof. reflexivity. Qed.

(** A transform is called on the options object, and can hand its
    context to the executor. *)
Example context_forwarded :
  option_map Params.rootValue
    (hd_error (snd (handler echo_runQuery message_formatError JSON_parse
                      (Static forwarding_options) (post item_ok) Response.fresh)))
  = Some (Some 7).
Proof. vm_compute. reflexivity. Qed.

(** The executor's answers may depend on the calls made before: the
    second item of this batch is told that one call preceded it. *)
Example executor_sees_earlier_calls :
  fst (handler echo_runQuery message_formatError JSON_parse
         (Static plain_options)
         (post (JArr [JObj [("query", JStr "{ count }")];
                      JObj [("query", JStr "{ count }")]]))
         Response.fresh)
  = Ok {| Response.statusCode := 200;
          Response.headers := [("Content-Type", "application/json")];
          Response.sent :=
            Some ("[{" ++ in_quotes "data" ++ ":0},{"
                  ++ in_quotes "data" ++ ":1}]") |}.
Proof. vm_compute. reflexivity. Qed.


(** C2 fails as stated: the failure of the first item aborts the batch,
    and its sibling is never processed. *)
Lemma item_failure_recovered_in_place_counterexample :
  handler echo_runQuery message_formatError JSON_parse (Static plain_options)
    (post (JArr [item_void; item_ok])) Response.fresh
  = (Raise (Error "Received null or undefined error."),
     [assembleParams message_formatError plain_options
        (JStr "{ void }") JUndefined JUndefined]).
Proof. vm_compute. reflexivity. Qed.



Lemma item_failure_recovered_in_place_witness :
  List.length
    [{| GraphQLResult.data := JObj [("variables", JObj [("a", JInt 1)])];
        GraphQLResult.errors := None |}] = 1
  /\ exists made,
       (made = [] \/ exists params, made = [params])
       /\ handler echo_runQuery message_formatError JSON_parse
            (Static plain_options) (post (JArr batch3)) Response.fresh
          = match processAll echo_runQuery message_formatError JSON_parse
                    plain_options [item_bad_variables]
                    ([{| GraphQLResult.data :=
                           JObj [("variables", JObj [("a", JInt 1)])];
                         GraphQLResult.errors := None |};
                      {| GraphQLResult.data := JUndefined;
                         GraphQLResult.errors :=
                           Some [JObj [("message",
                                        JStr "Must provide query string.")]] |}],
                     ([assembleParams message_formatError plain_options
                         (JStr "{ me }") (JObj [("a", JInt 1)]) JUndefined]
                      ++ made)%list) with
            | (Ok results, calls') =>
                (Ok (Response.send
                       (JSON_stringify (JArr (map GraphQLResult.value results)))
                       (Response.setHeader "Content-Type" "application/json"
                          Response.fresh)),
                 calls')
            | (Raise e', calls') => (Raise e', calls')
            end.
Proof.
  apply (item_failure_recovered_in_place echo_runQuery message_formatError
           JSON_parse (Static plain_options) (post (JArr batch3)) Response.fresh
           plain_options [item_ok] item_no_query [item_bad_variables]
           [{| GraphQLResult.data := JObj [("variables", JObj [("a", JInt 1)])];
               GraphQLResult.errors := None |}]
           [assembleParams message_formatError plain_options
              (JStr "{ me }") (JObj [("a", JInt 1)]) JUndefined]
           (Error "Must provide query string.")
           (JObj [("message", JStr "Must provide query string.")])).
  - reflexivity.
  - reflexivity.
  - constructor.
  - vm_compute. reflexivity.
  - eapply raises_presence; reflexivity.
  - reflexivity.
Defined.



Lemma query_presence_checked_on_final_params_witness :
  tryBlock echo_runQuery message_formatError JSON_parse
    blanking_options item_ok []
  = (Raise (Error "Must provide query string."), [])
  /\ processItem echo_runQuery message_formatError JSON_parse
       blanking_options item_ok []
     = (errorResult message_formatError blanking_options
          (Error "Must provide query string."), []).
Proof.
  apply (query_presence_checked_on_final_params
           echo_runQuery message_formatError JSON_parse blanking_options item_ok
           (JStr "{ me }") JUndefined (JStr a1_text) (JObj [("a", JInt 1)])
           {| Params.schema := 0;
              Params.query := JStr EmptyString;
              Params.variables := JObj [("a", JInt 1)];
              Params.rootValue := None;
              Params.operationName := JUndefined;
              Params.logFunction := None;
              Params.validationRules := None;
              Params.formatError := message_formatError;
              Params.formatResponse := None |}
           []).
  - reflexivity.
  - vm_compute. reflexivity.
  - reflexivity.
  - right. reflexivity.
Defined.

Lemma non_post_rejected_witness :
  handler echo_runQuery message_formatError JSON_parse (Static plain_options)
    get_request Response.fresh
  = (Ok {| Response.statusCode := 405;
           Response.headers := [("Allow", "POST")];
           Response.sent := Some "Apollo Server supports only POST requests." |},
     []).
Proof.
  apply (non_post_rejected echo_runQuery message_formatError JSON_parse
           (Static plain_options) get_request Response.fresh).
  discriminate.
Defined.

Lemma missing_body_rejected_witness :
  handler echo_runQuery message_formatError JSON_parse (Static plain_options)
    (post JUndefined) Response.fresh
  = (Ok {| Response.statusCode := 500;
           Response.headers := [];
           Response.sent :=
             Some ("POST body missing. Did you forget "
                   ++ in_quotes "app.use(bodyParser.json())" ++ "?") |},
     []).
Proof.
  apply (missing_body_rejected echo_runQuery message_formatError JSON_parse
           (Static plain_options) (post JUndefined) Response.fresh);
    reflexivity.
Defined.

Lemma factory_rejects_bad_arguments_witness :
  (exists message,
      graphqlHTTP echo_runQuery message_formatError JSON_parse
        [Some (Static plain_options); Some (Static plain_options)]
      = Raise (Error message))
  /\ (forall h,
         graphqlHTTP echo_runQuery message_formatError JSON_parse
           [Some (Static plain_options); Some (Static plain_options)]
         <> Ok h).
Proof.
  apply (factory_rejects_bad_arguments echo_runQuery message_formatError
           JSON_parse
           [Some (Static plain_options); Some (Static plain_options)]).
  right. simpl. lia.
Defined.

Lemma empty_batch_response_witness :
  handler echo_runQuery message_formatError JSON_parse (Static plain_options)
    (post (JArr [])) Response.fresh
  = (Ok {| Response.statusCode := 200;
           Response.headers := [("Content-Type", "application/json")];
           Response.sent := Some "[]" |},
     []).
Proof.
  apply (empty_batch_response echo_runQuery message_formatError JSON_parse
           (Static plain_options) (post (JArr [])) Response.fresh);
    reflexivity.
Defined.

(* ================================================================== *)
(** ** The further properties on sample requests *)
(* ================================================================== *)

Lemma falsy_body_rejected_witness :
  handler echo_runQuery message_formatError JSON_parse (Static plain_options)
    (post JNull) Response.fresh
  = (Ok {| Response.statusCode := 500;
           Response.headers := [];
           Response.sent := Some body_missing_body |},
     []).
Proof.
  apply (falsy_body_rejected echo_runQuery message_formatError JSON_parse
           (Static plain_options) (post JNull) Response.fresh);
    reflexivity.
Defined.

Lemma success_passes_through_witness :
  processItem echo_runQuery message_formatError JSON_parse plain_options item_ok []
  = (Ok {| GraphQLResult.data := JObj [("variables", JObj [("a", JInt 1)])];
           GraphQLResult.errors := None |},
     [assembleParams message_formatError plain_options
        (JStr "{ me }") (JObj [("a", JInt 1)]) JUndefined]).
Proof.
  refine (success_passes_through echo_runQuery message_formatError JSON_parse
            plain_options item_ok
            (JStr "{ me }") JUndefined (JStr a1_text) (JObj [("a", JInt 1)])
            (assembleParams message_formatError plain_options
               (JStr "{ me }") (JObj [("a", JInt 1)]) JUndefined)
            {| GraphQLResult.data := JObj [("variables", JObj [("a", JInt 1)])];
               GraphQLResult.errors := None |}
            [] _ _ _ _ _).
  - reflexivity.
  - vm_compute. reflexivity.
  - reflexivity.
  - reflexivity.
  - reflexivity.
Defined.

Lemma executor_receives_item_fields_witness :
  processItem echo_runQuery message_formatError JSON_parse plain_options
    (JObj [("query", JStr "{ boom }"); ("variables", JObj []);
           ("operationName", JStr "Me")]) []
  = (Ok {| GraphQLResult.data := JUndefined;
           GraphQLResult.errors :=
             Some [JObj [("message", JStr "executor failed")]] |},
     [{| Params.schema := 0;
         Params.query := JStr "{ boom }";
         Params.variables := JObj [];
         Params.rootValue := None;
         Params.operationName := JStr "Me";
         Params.logFunction := None;
         Params.validationRules := None;
         Params.formatError := message_formatError;
         Params.formatResponse := None |}]).
Proof.
  apply (executor_receives_item_fields echo_runQuery message_formatError
           JSON_parse plain_options
           [("query", JStr "{ boom }"); ("variables", JObj []);
            ("operationName", JStr "Me")] []).
  - reflexivity.
  - reflexivity.
  - intros text. discriminate.
Defined.

Lemma primitive_body_fails_query_check_witness :
  handler echo_runQuery message_formatError JSON_parse
    (Resolver per_request_options) (post (JStr "{ me }")) Response.fresh
  = (Ok {| Response.statusCode := 400;
           Response.headers := [("Content-Type", "application/json")];
           Response.sent :=
             Some (JSON_stringify
                     (GraphQLResult.value
                        {| GraphQLResult.data := JUndefined;
                           GraphQLResult.errors :=
                             Some [JObj [("message",
                                          JStr "Must provide query string.")]] |})) |},
     []).
Proof.
  apply (primitive_body_fails_query_check echo_runQuery message_formatError
           JSON_parse (Resolver per_request_options) (post (JStr "{ me }"))
           Response.fresh plain_options
           (JObj [("message", JStr "Must provide query string.")])).
  - reflexivity.
  - reflexivity.
  - reflexivity.
  - intros fields. discriminate.
  - exact (configures_resolver per_request_options (post (JStr "{ me }"))).
  - reflexivity.
  - reflexivity.
Defined.

Lemma factory_reports_one_argument_too_many_witness :
  graphqlHTTP echo_runQuery message_formatError JSON_parse
    [Some (Static plain_options); None; None]
  = Raise (Error "Apollo Server expects exactly one argument, got 4").
Proof.
  apply (factory_reports_one_argument_too_many echo_runQuery message_formatError
           JSON_parse
           [Some (Static plain_options); None; None] (Static plain_options)).
  - reflexivity.
  - simpl. lia.
Defined.

Lemma factory_refuses_undefined_options_witness :
  graphqlHTTP echo_runQuery message_formatError JSON_parse
    [None; Some (Static plain_options)]
  = Raise (Error "Apollo Server requires options.").
Proof.
  apply (factory_refuses_undefined_options echo_runQuery message_formatError
           JSON_parse
           [None; Some (Static plain_options)] [Some (Static plain_options)]).
  reflexivity.
Defined.

Lemma error_result_wire_format_witness :
  exists formatted,
    formatErrorFn message_formatError plain_options (Error "executor failed")
    = Ok formatted
    /\ JSON_stringify
         (GraphQLResult.value
            {| GraphQLResult.data := JUndefined;
               GraphQLResult.errors :=
                 Some [JObj [("message", JStr "executor failed")]] |})
       = "{" ++ in_quotes "errors" ++ ":["
         ++ JSON_stringify formatted ++ "]}".
Proof.
  apply (error_result_wire_format message_formatError plain_options
           (Error "executor failed")).
  reflexivity.
Defined.

Lemma formatter_failure_aborts_witness :
  exists made,
    (made = [] \/ exists params, made = [params])
    /\ handler echo_runQuery message_formatError JSON_parse
         (Static plain_options) (post (JArr [item_void; item_ok])) Response.fresh
       = (Raise (Error "Received null or undefined error."), made).
Proof.
  apply (formatter_failure_aborts echo_runQuery message_formatError JSON_parse
           (Static plain_options) (post (JArr [item_void; item_ok]))
           Response.fresh plain_options [] item_void [item_ok] [] []
           (Thrown JUndefined) (Error "Received null or undefined error.")).
  - reflexivity.
  - reflexivity.
  - constructor.
  - reflexivity.
  - eapply raises_executor; reflexivity.
  - reflexivity.
Defined.

Lemma explorer_text_fields_witness :
  GraphiQLData.query
    {| GraphiQLData.endpointURL := "/graphql";
       GraphiQLData.query := Some "foo";
       GraphiQLData.variables := JObj [];
       GraphiQLData.operationName := Some "Me" |} = Some "foo"
  /\ GraphiQLData.operationName
       {| GraphiQLData.endpointURL := "/graphql";
          GraphiQLData.query := Some "foo";
          GraphiQLData.variables := JObj [];
          GraphiQLData.operationName := Some "Me" |}
     = GraphiQLData.operationName explorer_options.
Proof.
  pose proof (explorer_text_fields explorer_options
                (get_with [("query", "foo")])
                {| GraphiQLData.endpointURL := "/graphql";
                   GraphiQLData.query := Some "foo";
                   GraphiQLData.variables := JObj [];
                   GraphiQLData.operationName := Some "Me" |}
                eq_refl) as [Hq [_ [_ [Ho _]]]].
  split.
  - apply (Hq "foo"); [reflexivity | discriminate].
  - apply Ho. left. reflexivity.
Defined.

Lemma explorer_variables_not_supplied_witness :
  exists data,
    renderGraphiQL GraphiQLData.endpointURL explorer_options
      (get_with [("query", "foo")]) Response.fresh
    = Ok {| Response.statusCode := 200;
            Response.headers := [("Content-Type", "text/html")];
            Response.sent := Some (GraphiQLData.endpointURL data) |}
    /\ GraphiQLData.variables data = JObj [].
Proof.
  apply (explorer_variables_not_supplied GraphiQLData.endpointURL
           explorer_options (get_with [("query", "foo")]) Response.fresh).
  left. reflexivity.
Defined.

Lemma explorer_unparsable_variables_throw_witness :
  renderGraphiQL GraphiQLData.endpointURL explorer_options
    (get_with [("variables", "{a:1}")]) Response.fresh
  = Raise SyntaxError.
Proof.
  apply (explorer_unparsable_variables_throw GraphiQLData.endpointURL
           explorer_options (get_with [("variables", "{a:1}")]) Response.fresh
           "{a:1}" SyntaxError).
  - reflexivity.
  - discriminate.
  - reflexivity.
Defined.
